(** * spea-PolicyLint: a shallow embedding of [main.py]

    The program loads a policy document (YAML or JSON) and a JSON schema,
    hands both to the [jsonschema] engine and maps every outcome to a printed
    line and a process exit status.  Everything it does is control flow around
    four external calls ([open], [yaml.safe_load], [json.load],
    [jsonschema.validate]) and Python exception handling, so the embedding
    models exactly that: Python values, exception classes with their
    inheritance chain, [try]/[except] with ordered handler clauses, and the
    trace of observable events (files opened, parser and engine calls, log
    records, printed lines). *)

From Stdlib Require Import Ascii String List ZArith Bool DecimalString DecimalZ Lia.
Import ListNotations.
Open Scope string_scope.
Open Scope list_scope.
Set Warnings "-register-all".

(** ** Python values produced by the parsers *)

(** The trees that [json.load] and [yaml.safe_load] build.  A [dict] is kept
    as its list of items in insertion order.  The program never computes with
    a float, so a float carries only its literal. *)
Inductive value : Type :=
| VNone
| VBool (b : bool)
| VInt (z : Z)
| VFloat (literal : string)
| VStr (s : string)
| VList (items : list value)
| VDict (items : list (string * value)).

(** [isinstance(v, dict)] *)
Definition is_dict (v : value) : bool :=
  match v with
  | VDict _ => true
  | _ => false
  end.

(** Induction over values, through the lists nested in them *)

Section ValueInduction.

Variable P : value -> Prop.
Hypothesis HNone : P VNone.
Hypothesis HBool : forall b, P (VBool b).
Hypothesis HInt : forall z, P (VInt z).
Hypothesis HFloat : forall literal, P (VFloat literal).
Hypothesis HStr : forall s, P (VStr s).
Hypothesis HList : forall items, Forall P items -> P (VList items).
Hypothesis HDict :
  forall items, Forall (fun kv => P (snd kv)) items -> P (VDict items).


End ValueInduction.

(** ** Exceptions *)

Module Exn.

(** The exception classes the program names or can meet, with the classes
    between them and [BaseException]. *)
Inductive class : Type :=
| BaseException
| SystemExit (code : Z)
| KeyboardInterrupt
| Exception
| OSError
| FileNotFoundError
| PermissionError
| IsADirectoryError
| ValueError
| UnicodeError
| UnicodeDecodeError
| JSONDecodeError
| YAMLError
| MarkedYAMLError
| ScannerError
| ParserError
| ValidationError
| SchemaError
| OtherException (name : string).   (* any other class derived from Exception *)

(** The direct base class: [class FileNotFoundError(OSError)],
    [class JSONDecodeError(ValueError)] in [json.decoder],
    [class YAMLError(Exception)] in [yaml.error],
    [class ValidationError(_Error)] with [class _Error(Exception)] in
    [jsonschema.exceptions], and so on. *)
Definition base (c : class) : option class :=
  match c with
  | BaseException => None
  | SystemExit _ => Some BaseException
  | KeyboardInterrupt => Some BaseException
  | Exception => Some BaseException
  | OSError => Some Exception
  | FileNotFoundError => Some OSError
  | PermissionError => Some OSError
  | IsADirectoryError => Some OSError
  | ValueError => Some Exception
  | UnicodeError => Some ValueError
  | UnicodeDecodeError => Some UnicodeError
  | JSONDecodeError => Some ValueError
  | YAMLError => Some Exception
  | MarkedYAMLError => Some YAMLError
  | ScannerError => Some MarkedYAMLError
  | ParserError => Some MarkedYAMLError
  | ValidationError => Some Exception
  | SchemaError => Some Exception
  | OtherException _ => Some Exception
  end.

(** In a handler clause [except C:] the class [C] is named without its
    constructor arguments; [SystemExit] matches whatever its code. *)
Definition same (c d : class) : bool :=
  match c, d with
  | BaseException, BaseException => true
  | SystemExit _, SystemExit _ => true
  | KeyboardInterrupt, KeyboardInterrupt => true
  | Exception, Exception => true
  | OSError, OSError => true
  | FileNotFoundError, FileNotFoundError => true
  | PermissionError, PermissionError => true
  | IsADirectoryError, IsADirectoryError => true
  | ValueError, ValueError => true
  | UnicodeError, UnicodeError => true
  | UnicodeDecodeError, UnicodeDecodeError => true
  | JSONDecodeError, JSONDecodeError => true
  | YAMLError, YAMLError => true
  | MarkedYAMLError, MarkedYAMLError => true
  | ScannerError, ScannerError => true
  | ParserError, ParserError => true
  | ValidationError, ValidationError => true
  | SchemaError, SchemaError => true
  | OtherException n, OtherException m => String.eqb n m
  | _, _ => false
  end.

(** [issubclass(c, d)]: walk the chain of base classes.  No chain above is
    longer than five classes. *)
Fixpoint issubclass_upto (fuel : nat) (c d : class) : bool :=
  same c d ||
  match fuel with
  | O => false
  | S fuel' =>
      match base c with
      | Some b => issubclass_upto fuel' b d
      | None => false
      end
  end.

Definition issubclass : class -> class -> bool := issubclass_upto 5.

(** A raised exception object: its class and [str(e)]. *)
Record t : Type := make { cls : class; str : string }.

Definition isinstance (e : t) (d : class) : bool := issubclass (cls e) d.

End Exn.

Definition exn : Type := Exn.t.

(** ** Observable events *)

Inductive level : Type := DEBUG | INFO | WARNING | ERROR | CRITICAL.

Inductive event : Type :=
| EvOpen (path : string)                    (* open(path, "r") *)
| EvYamlLoad (text : string)                (* yaml.safe_load(f) *)
| EvJsonLoad (text : string)                (* json.load(f) *)
| EvValidate (instance schema : value)      (* validate(instance=, schema=) *)
| EvSetLevel (lvl : string)                 (* logging.getLogger().setLevel *)
| EvLog (lvl : level) (message : string)    (* logging.error / logging.info *)
| EvPrint (line : string).                  (* print *)

(** ** Computations: a trace of events and a result or a raised exception *)

Inductive outcome (A : Type) : Type :=
| Ret (a : A)
| Raise (e : exn).
Arguments Ret {A} a.
Arguments Raise {A} e.

Definition M (A : Type) : Type := list event * outcome A.

Definition ret {A} (a : A) : M A := ([], Ret a).
Definition raise {A} (e : exn) : M A := ([], Raise e).
Definition emit (ev : event) : M unit := ([ev], Ret tt).

Definition bind {A B} (m : M A) (k : A -> M B) : M B :=
  match m with
  | (t, Ret a) => let (t', r) := k a in (t ++ t', r)
  | (t, Raise e) => (t, Raise e)
  end.

Notation "x <- m ;; k" := (bind m (fun x => k))
  (at level 61, m at next level, right associativity).
Notation "m ;; k" := (bind m (fun _ => k))
  (at level 61, right associativity).

Definition trace {A} (m : M A) : list event := fst m.
Definition result {A} (m : M A) : outcome A := snd m.

(** [except C as e: body]: one handler clause. *)
Definition clause (A : Type) : Type := Exn.class * (exn -> M A).

(** The first clause, in program order, whose class the exception is an
    instance of. *)
Fixpoint select {A} (e : exn) (hs : list (clause A)) : option (exn -> M A) :=
  match hs with
  | [] => None
  | (c, h) :: rest => if Exn.isinstance e c then Some h else select e rest
  end.

(** [try: m  except ...: ...].  An exception no clause matches propagates;
    an exception raised inside a handler propagates too (the clauses of the
    same [try] do not apply to it). *)
Definition try_except {A} (m : M A) (hs : list (clause A)) : M A :=
  match m with
  | (t, Ret a) => (t, Ret a)
  | (t, Raise e) =>
      match select e hs with
      | Some h => let (t', r) := h e in (t ++ t', r)
      | None => (t, Raise e)
      end
  end.

(** ** The world outside the program *)

(** What the four external calls answer.  [open_file path] is
    [open(path, "r")]: the text behind the handle, or the [OSError] raised.
    The parsers read from the handle, so a decoding error while reading is
    one of the exceptions a parser may raise. *)
Record World : Type := {
  open_file : string -> outcome string;
  yaml_safe_load : string -> outcome value;
  json_load : string -> outcome value;
  jsonschema_validate : value -> value -> outcome unit
}.

Definition logging_error (message : string) : M unit := emit (EvLog ERROR message).
Definition logging_info (message : string) : M unit := emit (EvLog INFO message).
Definition print (line : string) : M unit := emit (EvPrint line).
Definition sys_exit {A} (code : Z) : M A := raise (Exn.make (Exn.SystemExit code) EmptyString).

(** The namespace [setup_argparse()] returns. *)
Record Args : Type := {
  policy_file : string;
  schema_file : string;
  format : string;
  log_level : string
}.

Section Program.

Variable w : World.

Definition open_ (path : string) : M string :=
  (EvOpen path :: nil, open_file w path).

Definition yaml_load_call (text : string) : M value :=
  (EvYamlLoad text :: nil, yaml_safe_load w text).

Definition json_load_call (text : string) : M value :=
  (EvJsonLoad text :: nil, json_load w text).

Definition validate_call (instance schema : value) : M unit :=
  (EvValidate instance schema :: nil, jsonschema_validate w instance schema).

(** [load_policy(policy_file, format="yaml")] *)
Definition load_policy (policy_file format : string) : M value :=
  try_except
    (f <- open_ policy_file ;;
     policy <-
       (if format =? "yaml" then
          try_except (yaml_load_call f)
            [(Exn.YAMLError, fun e =>
                logging_error ("Error parsing YAML file: " ++ Exn.str e)%string ;;
                raise e)]
        else if format =? "json" then
          try_except (json_load_call f)
            [(Exn.JSONDecodeError, fun e =>
                logging_error ("Error parsing JSON file: " ++ Exn.str e)%string ;;
                raise e)]
        else
          raise (Exn.make Exn.ValueError "Invalid format. Must be 'yaml' or 'json'.")) ;;
     if negb (is_dict policy) then
       raise (Exn.make Exn.ValueError "Policy file must contain a dictionary.")
     else
       ret policy)
    [(Exn.FileNotFoundError, fun e =>
        logging_error ("Policy file not found: " ++ policy_file)%string ;;
        raise e);
     (Exn.ValueError, fun e =>
        logging_error (Exn.str e) ;;
        raise e)].

(** [load_schema(schema_file)] *)
Definition load_schema (schema_file : string) : M value :=
  try_except
    (f <- open_ schema_file ;;
     schema <-
       try_except (json_load_call f)
         [(Exn.JSONDecodeError, fun e =>
             logging_error ("Error parsing JSON file: " ++ Exn.str e)%string ;;
             raise e)] ;;
     ret schema)
    [(Exn.FileNotFoundError, fun e =>
        logging_error ("Schema file not found: " ++ schema_file)%string ;;
        raise e);
     (Exn.JSONDecodeError, fun e =>
        logging_error ("Error decoding JSON from " ++ schema_file)%string ;;
        raise e)].

(** [validate_policy(policy, schema)] *)
Definition validate_policy (policy schema : value) : M unit :=
  try_except
    (validate_call policy schema ;;
     logging_info "Policy validation successful.")
    [(Exn.ValidationError, fun e =>
        logging_error ("Policy validation failed: " ++ Exn.str e)%string ;;
        raise e)].

(** [main()], from the point where the arguments are parsed. *)
Definition main (args : Args) : M unit :=
  emit (EvSetLevel (log_level args)) ;;
  try_except
    (policy <- load_policy (policy_file args) (format args) ;;
     schema <- load_schema (schema_file args) ;;
     validate_policy policy schema ;;
     print "Policy validation successful.")
    [(Exn.FileNotFoundError, fun _ =>
        print "One or more required files were not found.  See logs for details." ;;
        sys_exit 1);
     (Exn.ValueError, fun _ =>
        print "Invalid input provided.  See logs for details." ;;
        sys_exit 1);
     (Exn.YAMLError, fun _ =>
        print "Error parsing YAML. See logs for details." ;;
        sys_exit 1);
     (Exn.JSONDecodeError, fun _ =>
        print "Error parsing JSON. See logs for details." ;;
        sys_exit 1);
     (Exn.ValidationError, fun _ =>
        print "Policy validation failed. See logs for details." ;;
        sys_exit 1);
     (Exn.Exception, fun e =>
        logging_error ("An unexpected error occurred: " ++ Exn.str e)%string ;;
        print "An unexpected error occurred.  See logs for details." ;;
        sys_exit 1)].

End Program.

(** [setup_argparse()] builds the parser and returns [parser.parse_args()].
    What argparse makes of the command line is outside the program, so the
    call is a parameter: the namespace it returns, or the [SystemExit] it
    raises (status 2 after a usage message on standard error, status 0 after
    the help text on standard output).  Its trace holds what argparse itself
    wrote on standard output. *)
Definition setup_argparse (parse_args : M Args) : M Args := parse_args.

(** [main()] from its first statement, [args = setup_argparse()], which
    stands before the [try]. *)
Definition main_from_command_line (parse_args : M Args) (w : World) : M unit :=
  args <- setup_argparse parse_args ;;
  main w args.

(** The [try] block of [main] and its [except] clauses, named apart. *)
Definition main_body (w : World) (args : Args) : M unit :=
  policy <- load_policy w (policy_file args) (format args) ;;
  schema <- load_schema w (schema_file args) ;;
  validate_policy w policy schema ;;
  print "Policy validation successful.".

Definition leave_with (line : string) : M unit := print line ;; sys_exit 1.

Definition main_clauses : list (clause unit) :=
  [(Exn.FileNotFoundError, fun _ =>
      leave_with "One or more required files were not found.  See logs for details.");
   (Exn.ValueError, fun _ =>
      leave_with "Invalid input provided.  See logs for details.");
   (Exn.YAMLError, fun _ =>
      leave_with "Error parsing YAML. See logs for details.");
   (Exn.JSONDecodeError, fun _ =>
      leave_with "Error parsing JSON. See logs for details.");
   (Exn.ValidationError, fun _ =>
      leave_with "Policy validation failed. See logs for details.");
   (Exn.Exception, fun e =>
      logging_error ("An unexpected error occurred: " ++ Exn.str e)%string ;;
      leave_with "An unexpected error occurred.  See logs for details.")].

(** Whether one of the five clauses of [main] that name a specific class
    applies to [e]. *)
Definition named_by_main (e : exn) : bool :=
  Exn.isinstance e Exn.FileNotFoundError
  || Exn.isinstance e Exn.ValueError
  || Exn.isinstance e Exn.YAMLError
  || Exn.isinstance e Exn.JSONDecodeError
  || Exn.isinstance e Exn.ValidationError.

(** How the interpreter ends after [if __name__ == "__main__": main()]: a
    normal return is exit status 0, [SystemExit(n)] is exit status [n], any
    other exception leaving [main] ends the process with a traceback. *)
Inductive status : Type :=
| Exited (code : Z)
| Traceback (e : exn).

Definition process_status (m : M unit) : status :=
  match result m with
  | Ret _ => Exited 0
  | Raise e =>
      match Exn.cls e with
      | Exn.SystemExit n => Exited n
      | _ => Traceback e
      end
  end.

Definition run (w : World) (args : Args) : list event * status :=
  (trace (main w args), process_status (main w args)).

(** The lines [main] printed, in order. *)
Fixpoint printed (t : list event) : list string :=
  match t with
  | [] => []
  | EvPrint line :: t' => line :: printed t'
  | _ :: t' => printed t'
  end.

(** The files opened, in order. *)
Fixpoint opened (t : list event) : list string :=
  match t with
  | [] => []
  | EvOpen path :: t' => path :: opened t'
  | _ :: t' => opened t'
  end.

(** The calls made to the conformance engine, in order. *)
Fixpoint validated (t : list event) : list (value * value) :=
  match t with
  | [] => []
  | EvValidate i s :: t' => (i, s) :: validated t'
  | _ :: t' => validated t'
  end.

(** The messages logged at [ERROR] level, in order. *)
Fixpoint errors_logged (t : list event) : list string :=
  match t with
  | [] => []
  | EvLog ERROR m :: t' => m :: errors_logged t'
  | _ :: t' => errors_logged t'
  end.

(** The parser [load_policy] selects for a format, if any. *)
Definition parser_for (w : World) (format : string) : option (string -> outcome value) :=
  if format =? "yaml" then Some (yaml_safe_load w)
  else if format =? "json" then Some (json_load w)
  else None.

(** The texts handed to [yaml.safe_load], in order. *)
Fixpoint yaml_loaded (t : list event) : list string :=
  match t with
  | [] => []
  | EvYamlLoad text :: t' => text :: yaml_loaded t'
  | _ :: t' => yaml_loaded t'
  end.

(** The texts handed to [json.load], in order. *)
Fixpoint json_loaded (t : list event) : list string :=
  match t with
  | [] => []
  | EvJsonLoad text :: t' => text :: json_loaded t'
  | _ :: t' => json_loaded t'
  end.

(** Every log record, with its level, in order. *)
Fixpoint logged (t : list event) : list (level * string) :=
  match t with
  | [] => []
  | EvLog lvl m :: t' => (lvl, m) :: logged t'
  | _ :: t' => logged t'
  end.

(** An external call that returns, or raises something derived from
    [Exception] (not [SystemExit], [KeyboardInterrupt] or a bare
    [BaseException]). *)
Definition ordinary {A} (r : outcome A) : Prop :=
  match r with
  | Ret _ => True
  | Raise e => Exn.isinstance e Exn.Exception = true
  end.

(** A world none of whose four calls interrupts or exits the interpreter. *)
Definition raises_only_exceptions (w : World) : Prop :=
  (forall path, ordinary (open_file w path)) /\
  (forall text, ordinary (yaml_safe_load w text)) /\
  (forall text, ordinary (json_load w text)) /\
  (forall inst schema, ordinary (jsonschema_validate w inst schema)).

(** The lines that [main] has a clause or statement to print. *)
Definition success_line : string := "Policy validation successful.".
Definition not_found_line : string :=
  "One or more required files were not found.  See logs for details.".
Definition invalid_input_line : string :=
  "Invalid input provided.  See logs for details.".
Definition yaml_error_line : string := "Error parsing YAML. See logs for details.".
Definition json_error_line : string := "Error parsing JSON. See logs for details.".
Definition validation_failed_line : string :=
  "Policy validation failed. See logs for details.".
Definition unexpected_line : string :=
  "An unexpected error occurred.  See logs for details.".

(** ** A reference reading of the conformance engine *)

Module Schema.

(** [d.get(k)] on the items of a dict. *)
Fixpoint dict_get (k : string) (items : list (string * value)) : option value :=
  match items with
  | [] => None
  | (k', v) :: rest => if k =? k' then Some v else dict_get k rest
  end.

Definition both (a b : option bool) : option bool :=
  match a, b with
  | Some x, Some y => Some (x && y)
  | _, _ => None
  end.

(** Modelled from the spec: the "type" keyword of the external JSON-Schema
    conformance engine (the [jsonschema] package, which is not part of the
    repository).  Whether a float counts as an integer depends on its value,
    which the model does not carry, so that case has no verdict. *)
Definition check_type (name : string) (inst : value) : option bool :=
  if name =? "object" then Some (is_dict inst)
  else if name =? "array" then
    Some match inst with VList _ => true | _ => false end
  else if name =? "string" then
    Some match inst with VStr _ => true | _ => false end
  else if name =? "boolean" then
    Some match inst with VBool _ => true | _ => false end
  else if name =? "null" then
    Some match inst with VNone => true | _ => false end
  else if name =? "number" then
    Some match inst with VInt _ | VFloat _ => true | _ => false end
  else if name =? "integer" then
    match inst with
    | VInt _ => Some true
    | VFloat _ => None
    | _ => Some false
    end
  else None.

(** Modelled from the spec: the "required" keyword of the external engine.
    It constrains objects only; every listed name must be a key. *)
Fixpoint check_required (names : list value) (inst : value) : option bool :=
  match names with
  | [] => Some true
  | VStr name :: rest =>
      both
        (Some match inst with
              | VDict items =>
                  match dict_get name items with Some _ => true | None => false end
              | _ => true
              end)
        (check_required rest inst)
  | _ :: _ => None
  end.

Definition type_names : list string :=
  ["object"; "array"; "string"; "boolean"; "null"; "number"; "integer"].

Definition is_str (v : value) : bool :=
  match v with VStr _ => true | _ => false end.

Definition is_name (name : string) (v : value) : bool :=
  match v with VStr s => name =? s | _ => false end.

(** No string occurs twice in a list of names. *)
Fixpoint names_unique (names : list value) : bool :=
  match names with
  | [] => true
  | VStr name :: rest => negb (existsb (is_name name) rest) && names_unique rest
  | _ :: rest => names_unique rest
  end.

(** No key occurs twice among the items of a dict, as in every Python dict. *)
Fixpoint keys_unique (items : list (string * value)) : bool :=
  match items with
  | [] => true
  | (k, _) :: rest =>
      negb (existsb (fun item => k =? fst item) rest) && keys_unique rest
  end.

(** The values that are Python values: every dict in them has unique keys. *)
Fixpoint well_formed (v : value) : bool :=
  match v with
  | VList items =>
      (fix each (l : list value) : bool :=
         match l with
         | [] => true
         | x :: rest => well_formed x && each rest
         end) items
  | VDict items =>
      keys_unique items
      && (fix each (l : list (string * value)) : bool :=
            match l with
            | [] => true
            | (_, x) :: rest => well_formed x && each rest
            end) items
  | _ => true
  end.

(** The schemas of the fragment, all of them valid JSON Schemas: a dict
    whose keywords are "type" with one of the seven type names, "required"
    with a non-empty list of distinct strings, and "properties" with a dict
    of schemas of the fragment. *)
Fixpoint supported (schema : value) : bool :=
  match schema with
  | VDict keywords =>
      keys_unique keywords
      && (fix each (kws : list (string * value)) : bool :=
            match kws with
            | [] => true
            | (k, arg) :: rest =>
                (if k =? "type" then
                   match arg with
                   | VStr name => existsb (String.eqb name) type_names
                   | _ => false
                   end
                 else if k =? "required" then
                   match arg with
                   | VList [] => false
                   | VList names => forallb is_str names && names_unique names
                   | _ => false
                   end
                 else if k =? "properties" then
                   match arg with
                   | VDict props =>
                       keys_unique props
                       && (fix each_property (ps : list (string * value)) : bool :=
                             match ps with
                             | [] => true
                             | (_, sub) :: ps' => supported sub && each_property ps'
                             end) props
                   | _ => false
                   end
                 else false)
                && each rest
            end) keywords
  | _ => false
  end.

(** Modelled from the spec: whether an instance satisfies the constraints a
    schema lists, for the keywords "type" (one type name), "required" and
    "properties" of the external conformance engine.  [Some true]: every
    constraint is satisfied; [Some false]: one is violated; [None]: a
    keyword or an instance outside these, and the model says nothing. *)
Fixpoint conforms (schema inst : value) {struct schema} : option bool :=
  match schema with
  | VDict keywords =>
      (fix each (kws : list (string * value)) : option bool :=
         match kws with
         | [] => Some true
         | (k, arg) :: rest =>
             both
               (if k =? "type" then
                  match arg with
                  | VStr name => check_type name inst
                  | _ => None
                  end
                else if k =? "required" then
                  match arg with
                  | VList names => check_required names inst
                  | _ => None
                  end
                else if k =? "properties" then
                  match arg with
                  | VDict props =>
                      (fix each_property (ps : list (string * value)) : option bool :=
                         match ps with
                         | [] => Some true
                         | (name, sub) :: ps' =>
                             both
                               match inst with
                               | VDict items =>
                                   match dict_get name items with
                                   | Some x => conforms sub x
                                   | None => Some true
                                   end
                               | _ => Some true
                               end
                               (each_property ps')
                         end) props
                  | _ => None
                  end
                else None)
               (each rest)
         end) keywords
  | _ => None
  end.

(** Modelled from the spec: what the engine finds, where the model knows:
    for a valid schema of the fragment and a Python value, whether the
    value conforms. *)
Definition verdict (schema inst : value) : option bool :=
  if supported schema && well_formed inst then conforms schema inst else None.

(** The schema and the two policies of the specification's example. *)
Definition name_schema : value :=
  VDict [("type", VStr "object");
         ("required", VList [VStr "name"]);
         ("properties", VDict [("name", VDict [("type", VStr "string")])])].

Definition alice : value := VDict [("name", VStr "alice")].
Definition age5 : value := VDict [("age", VInt 5)].



End Schema.

(** ** A reference reading of the JSON serializer and parser *)

Module Json.

(** Modelled from the spec: the external JSON serializer and parser (Python's
    [json] module, which is not part of the repository), on the values of
    this development.  A character of a [string] stands for the Unicode code
    point of the same number, so the strings are those of code points below
    256.  Floats are left out: [VFloat] has no serialization here and a
    number with a fraction or an exponent is outside what the parser reads. *)

Definition backslash : ascii := "092"%char.

(** *** The serializer: [json.dumps] with its defaults

    Separators ", " and ": ", and every character outside the printable
    ASCII range, the quote and the backslash escaped. *)





Definition int_text (z : Z) : string := NilZero.string_of_int (Z.to_int z).



(** Python refuses to convert integers of more than 4300 digits to or from
    text, and the parser's recursion is bounded; 64 levels are well inside
    that bound. *)
Definition max_digits : nat := 4300.

Fixpoint depth (v : value) : nat :=
  match v with
  | VList items => S (fold_right (fun x d => Nat.max (depth x) d) O items)
  | VDict items => S (fold_right (fun '(_, x) d => Nat.max (depth x) d) O items)
  | _ => 1
  end.



(** *** The parser: [json.loads]

    [None] stands for a text that is not JSON or that the model leaves out
    (a float, a code point of 256 or more, "-0", a repeated key, an integer
    of more than [max_digits] characters, nesting deeper than
    [max_depth]); [Some v] for a text that [json.loads] reads as [v]. *)

Definition is_ws (c : ascii) : bool :=
  ((c =? " ") || (c =? "009") || (c =? "010") || (c =? "013"))%char.

Fixpoint skip_ws (s : string) : string :=
  match s with
  | String c s' => if is_ws c then skip_ws s' else s
  | EmptyString => EmptyString
  end.

Definition number_char (c : ascii) : bool :=
  existsb (Ascii.eqb c) ["0"; "1"; "2"; "3"; "4"; "5"; "6"; "7"; "8"; "9"; "-"]%char.

Fixpoint span_number (s : string) : string * string :=
  match s with
  | String c s' =>
      if number_char c then let (tok, rest) := span_number s' in (String c tok, rest)
      else (EmptyString, s)
  | EmptyString => (EmptyString, EmptyString)
  end.

Definition parse_int (s : string) : option (Z * string) :=
  let (tok, rest) := span_number s in
  match NilZero.int_of_string tok with
  | Some d =>
      let z := Z.of_int d in
      if (int_text z =? tok) && (String.length tok <=? max_digits)%nat
      then Some (z, rest) else None
  | None => None
  end.

Definition hex_value (c : ascii) : option nat :=
  let n := nat_of_ascii c in
  if (48 <=? n)%nat && (n <=? 57)%nat then Some (n - 48)%nat
  else if (97 <=? n)%nat && (n <=? 102)%nat then Some (n - 87)%nat
  else if (65 <=? n)%nat && (n <=? 70)%nat then Some (n - 55)%nat
  else None.

Definition code_point (h1 h2 h3 h4 : ascii) : option ascii :=
  match hex_value h1, hex_value h2, hex_value h3, hex_value h4 with
  | Some a, Some b, Some c, Some d =>
      let n := (((a * 16 + b) * 16 + c) * 16 + d)%nat in
      if (n <? 256)%nat then Some (ascii_of_nat n) else None
  | _, _, _, _ => None
  end.

Definition simple_escape (e : ascii) : option ascii :=
  if (e =? "034")%char then Some "034"%char
  else if (e =? backslash)%char then Some backslash
  else if (e =? "/")%char then Some "/"%char
  else if (e =? "b")%char then Some "008"%char
  else if (e =? "f")%char then Some "012"%char
  else if (e =? "n")%char then Some "010"%char
  else if (e =? "r")%char then Some "013"%char
  else if (e =? "t")%char then Some "009"%char
  else None.

Definition push (c : ascii) (r : option (string * string)) : option (string * string) :=
  match r with
  | Some (str, rest) => Some (String c str, rest)
  | None => None
  end.

Fixpoint parse_chars (s : string) : option (string * string) :=
  match s with
  | EmptyString => None
  | String c s1 =>
      if (c =? "034")%char then Some (EmptyString, s1)
      else if (c =? backslash)%char then
        match s1 with
        | EmptyString => None
        | String e s2 =>
            match simple_escape e with
            | Some c' => push c' (parse_chars s2)
            | None =>
                if (e =? "u")%char then
                  match s2 with
                  | String h1 (String h2 (String h3 (String h4 s3))) =>
                      match code_point h1 h2 h3 h4 with
                      | Some c' => push c' (parse_chars s3)
                      | None => None
                      end
                  | _ => None
                  end
                else None
            end
        end
      else if (32 <=? nat_of_ascii c)%nat then push c (parse_chars s1)
      else None
  end.

Fixpoint strip_prefix (p s : string) : option string :=
  match p with
  | EmptyString => Some s
  | String c p' =>
      match s with
      | String c' s' => if (c =? c')%char then strip_prefix p' s' else None
      | EmptyString => None
      end
  end.

Definition literal (word : string) (v : value) (s : string) : option (value * string) :=
  match strip_prefix word s with
  | Some rest => Some (v, rest)
  | None => None
  end.

Fixpoint parse_elements (pv : string -> option (value * string)) (n : nat) (s : string)
  : option (list value * string) :=
  match n with
  | O => None
  | S n' =>
      match pv s with
      | None => None
      | Some (v, rest) =>
          match skip_ws rest with
          | EmptyString => None
          | String c rest' =>
              if (c =? ",")%char then
                match parse_elements pv n' rest' with
                | Some (vs, r) => Some (v :: vs, r)
                | None => None
                end
              else if (c =? "]")%char then Some ([v], rest')
              else None
          end
      end
  end.

Definition parse_member (pv : string -> option (value * string)) (s : string)
  : option ((string * value) * string) :=
  match skip_ws s with
  | EmptyString => None
  | String q s1 =>
      if (q =? "034")%char then
        match parse_chars s1 with
        | None => None
        | Some (k, s2) =>
            match skip_ws s2 with
            | EmptyString => None
            | String c s3 =>
                if (c =? ":")%char then
                  match pv s3 with
                  | Some (v, rest) => Some ((k, v), rest)
                  | None => None
                  end
                else None
            end
        end
      else None
  end.

Fixpoint parse_members (pv : string -> option (value * string)) (n : nat) (s : string)
  : option (list (string * value) * string) :=
  match n with
  | O => None
  | S n' =>
      match parse_member pv s with
      | None => None
      | Some (kv, rest) =>
          match skip_ws rest with
          | EmptyString => None
          | String c rest' =>
              if (c =? ",")%char then
                match parse_members pv n' rest' with
                | Some (kvs, r) => Some (kv :: kvs, r)
                | None => None
                end
              else if (c =? "}")%char then Some ([kv], rest')
              else None
          end
      end
  end.

Fixpoint parse_value (depth : nat) (s : string) : option (value * string) :=
  match depth with
  | O => None
  | S depth' =>
      match skip_ws s with
      | EmptyString => None
      | String c rest =>
          if number_char c then
            match parse_int (String c rest) with
            | Some (z, r) => Some (VInt z, r)
            | None => None
            end
          else if (c =? "n")%char then literal "ull" VNone rest
          else if (c =? "t")%char then literal "rue" (VBool true) rest
          else if (c =? "f")%char then literal "alse" (VBool false) rest
          else if (c =? "034")%char then
            match parse_chars rest with
            | Some (str, r) => Some (VStr str, r)
            | None => None
            end
          else if (c =? "[")%char then
            match skip_ws rest with
            | EmptyString => None
            | String c' r =>
                if (c' =? "]")%char then Some (VList [], r)
                else
                  match parse_elements (parse_value depth') (String.length rest) rest with
                  | Some (items, r') => Some (VList items, r')
                  | None => None
                  end
            end
          else if (c =? "{")%char then
            match skip_ws rest with
            | EmptyString => None
            | String c' r =>
                if (c' =? "}")%char then Some (VDict [], r)
                else
                  match parse_members (parse_value depth') (String.length rest) rest with
                  | Some (items, r') =>
                      if Schema.keys_unique items then Some (VDict items, r') else None
                  | None => None
                  end
            end
          else None
      end
  end.






End Json.


(** ** A concrete world *)

Module Sample.

Definition quote : string := String "034"%char EmptyString.
Definition tab : string := String "009"%char EmptyString.
Definition newline : string := String "010"%char EmptyString.

Fixpoint lookup {A} (k : string) (table : list (string * A)) : option A :=
  match table with
  | [] => None
  | (k', a) :: rest => if k =? k' then Some a else lookup k rest
  end.

(** File contents. *)
Definition yaml_alice : string := "name: alice".
Definition yaml_age : string := "age: 5".
Definition yaml_unclosed : string := "name: [".
Definition json_alice : string :=
  ("{" ++ quote ++ "name" ++ quote ++ ": " ++ quote ++ "alice" ++ quote ++ "}")%string.
Definition json_alice_tabbed : string :=
  ("{" ++ newline ++ tab ++ quote ++ "name" ++ quote ++ ": "
       ++ quote ++ "alice" ++ quote ++ newline ++ "}")%string.
Definition json_list : string := "[1, 2]".
Definition json_null : string := "null".
Definition json_unclosed : string := "{".
Definition json_name_schema : string :=
  ("{" ++ quote ++ "type" ++ quote ++ ": " ++ quote ++ "object" ++ quote ++ ", "
       ++ quote ++ "required" ++ quote ++ ": [" ++ quote ++ "name" ++ quote ++ "], "
       ++ quote ++ "properties" ++ quote ++ ": {" ++ quote ++ "name" ++ quote ++ ": {"
       ++ quote ++ "type" ++ quote ++ ": " ++ quote ++ "string" ++ quote ++ "}}}")%string.
Definition json_bad_schema : string :=
  ("{" ++ quote ++ "type" ++ quote ++ ": 5}")%string.

Definition disk : list (string * string) :=
  [("alice.yaml", yaml_alice);
   ("age.yaml", yaml_age);
   ("unclosed.yaml", yaml_unclosed);
   ("empty.yaml", EmptyString);
   ("alice.json", json_alice);
   ("tabbed.json", json_alice_tabbed);
   ("list.json", json_list);
   ("null.json", json_null);
   ("unclosed.json", json_unclosed);
   ("schema.json", json_name_schema);
   ("bad_schema.json", json_bad_schema)].

Definition bad_schema : value := VDict [("type", VInt 5)].

Definition json_error (message : string) : outcome value :=
  Raise (Exn.make Exn.JSONDecodeError message).

(** What [json.load] answers on each of these texts. *)
Definition json_answers : list (string * outcome value) :=
  [(yaml_alice, json_error "Expecting value: line 1 column 1 (char 0)");
   (yaml_age, json_error "Expecting value: line 1 column 1 (char 0)");
   (yaml_unclosed, json_error "Expecting value: line 1 column 1 (char 0)");
   (EmptyString, json_error "Expecting value: line 1 column 1 (char 0)");
   (json_alice, Ret Schema.alice);
   (json_alice_tabbed, Ret Schema.alice);
   (json_list, Ret (VList [VInt 1; VInt 2]));
   (json_null, Ret VNone);
   (json_unclosed,
    json_error
      "Expecting property name enclosed in double quotes: line 1 column 2 (char 1)");
   (json_name_schema, Ret Schema.name_schema);
   (json_bad_schema, Ret bad_schema)].

(** What [yaml.safe_load] answers on them.  PyYAML's scanner skips blanks
    but not tabs between tokens, so the tab-indented JSON text is a
    [ScannerError] for it. *)
Definition yaml_answers : list (string * outcome value) :=
  [(yaml_alice, Ret Schema.alice);
   (yaml_age, Ret Schema.age5);
   (yaml_unclosed,
    Raise (Exn.make Exn.ParserError
             "while parsing a flow node expected the node content, but found '<stream end>'"));
   (EmptyString, Ret VNone);
   (json_alice, Ret Schema.alice);
   (json_alice_tabbed,
    Raise (Exn.make Exn.ScannerError
             "while scanning for the next token found character '\t' that cannot start any token"));
   (json_list, Ret (VList [VInt 1; VInt 2]));
   (json_null, Ret VNone);
   (json_unclosed,
    Raise (Exn.make Exn.ParserError
             "while parsing a flow node expected the node content, but found '<stream end>'"));
   (json_name_schema, Ret Schema.name_schema);
   (json_bad_schema, Ret bad_schema)].

Definition open_on_disk (path : string) : outcome string :=
  match lookup path disk with
  | Some text => Ret text
  | None =>
      Raise (Exn.make Exn.FileNotFoundError
               ("[Errno 2] No such file or directory: '" ++ path ++ "'")%string)
  end.

Definition answer (table : list (string * outcome value)) (text : string)
  : outcome value :=
  match lookup text table with
  | Some r => r
  | None => Raise (Exn.make (Exn.OtherException "NotImplementedError") text)
  end.

(** An engine that follows the reference reading and rejects every schema
    outside it the way the real engine rejects an invalid schema. *)
Definition reference_engine (inst schema : value) : outcome unit :=
  match Schema.verdict schema inst with
  | Some true => Ret tt
  | Some false => Raise (Exn.make Exn.ValidationError "instance violates the schema")
  | None => Raise (Exn.make Exn.SchemaError "schema is not valid")
  end.

Definition world : World :=
  {| open_file := open_on_disk;
     yaml_safe_load := answer yaml_answers;
     json_load := answer json_answers;
     jsonschema_validate := reference_engine |}.



(** The same disk with one file the process may not read, and a path that
    [open] refuses because of its NUL character. *)
Definition permission_denied : exn :=
  Exn.make Exn.PermissionError "[Errno 13] Permission denied: 'locked.yaml'".

Definition nul_path : string := ("schema" ++ String "000"%char ".json")%string.

Definition embedded_null : exn := Exn.make Exn.ValueError "embedded null byte".

Definition awkward_world : World :=
  {| open_file := fun path =>
       if path =? "locked.yaml" then Raise permission_denied
       else if path =? nul_path then Raise embedded_null
       else open_on_disk path;
     yaml_safe_load := answer yaml_answers;
     json_load := answer json_answers;
     jsonschema_validate := reference_engine |}.

Definition args (policy schema fmt : string) : Args :=
  {| policy_file := policy; schema_file := schema; format := fmt; log_level := "INFO" |}.

(** Two command lines as argparse answers them: one it accepts, and one
    with a positional argument missing (usage message on standard error,
    nothing on standard output, status 2). *)
Definition accepted (a : Args) : M Args := ([], Ret a).

Definition usage_error : M Args :=
  ([], Raise (Exn.make (Exn.SystemExit 2) "2")).

End Sample.

(** * Properties *)

#[local] Arguments Exn.isinstance !e d /.
#[local] Arguments String.append : simpl never.

(** ** Exception classes *)

Lemma JSONDecodeError_is_ValueError :
  Exn.issubclass Exn.JSONDecodeError Exn.ValueError = true.
Proof. reflexivity. Qed.

(** Whatever is caught by [except json.JSONDecodeError] is caught by
    [except ValueError] as well. *)
Lemma isinstance_JSONDecodeError_ValueError (e : exn) :
  Exn.isinstance e Exn.JSONDecodeError = true ->
  Exn.isinstance e Exn.ValueError = true.
Proof. destruct e as [c s]; destruct c; cbn; congruence. Qed.

Lemma isinstance_ValueError_not_FileNotFoundError (e : exn) :
  Exn.isinstance e Exn.ValueError = true ->
  Exn.isinstance e Exn.FileNotFoundError = false.
Proof. destruct e as [c s]; destruct c; cbn; congruence. Qed.

Lemma isinstance_YAMLError_disjoint (e : exn) :
  Exn.isinstance e Exn.YAMLError = true ->
  Exn.isinstance e Exn.FileNotFoundError = false /\
  Exn.isinstance e Exn.ValueError = false /\
  Exn.isinstance e Exn.Exception = true.
Proof. destruct e as [c s]; destruct c; cbn; intuition congruence. Qed.

(** ** Traces *)

Lemma opened_app (t u : list event) : opened (t ++ u) = opened t ++ opened u.
Proof.
  induction t as [|ev t IH]; [reflexivity|].
  destruct ev; simpl; now rewrite IH.
Qed.

Lemma validated_app (t u : list event) :
  validated (t ++ u) = validated t ++ validated u.
Proof.
  induction t as [|ev t IH]; [reflexivity|].
  destruct ev; simpl; now rewrite IH.
Qed.

Lemma printed_app (t u : list event) : printed (t ++ u) = printed t ++ printed u.
Proof.
  induction t as [|ev t IH]; [reflexivity|].
  destruct ev; simpl; now rewrite IH.
Qed.

(** ** Loading *)

Ltac unfold_python :=
  unfold load_policy, load_schema, validate_policy, open_, yaml_load_call,
    json_load_call, validate_call, logging_error, logging_info, print,
    sys_exit, emit, raise, ret.

Ltac by_format fmt :=
  unfold parser_for in *;
  destruct (String.eqb_spec fmt "yaml");
  [ subst fmt
  | destruct (String.eqb_spec fmt "json"); [ subst fmt | ] ].

(** The result of [load_policy] once the file has opened and the selected
    parser has returned. *)
Lemma load_policy_when_parsed
    (w : World) (path fmt text : string) (parse : string -> outcome value)
    (v : value) :
  open_file w path = Ret text ->
  parser_for w fmt = Some parse ->
  parse text = Ret v ->
  result (load_policy w path fmt) =
    if is_dict v then Ret v
    else Raise (Exn.make Exn.ValueError "Policy file must contain a dictionary.").
Proof.
  intros Hopen Hfmt Hparse.
  by_format fmt; try discriminate; injection Hfmt as <-;
    unfold_python; cbn; rewrite Hopen; cbn; rewrite Hparse; cbn;
    destruct (is_dict v); reflexivity.
Qed.

Lemma errors_logged_load_policy_when_parsed
    (w : World) (path fmt text : string) (parse : string -> outcome value)
    (v : value) :
  open_file w path = Ret text ->
  parser_for w fmt = Some parse ->
  parse text = Ret v ->
  errors_logged (trace (load_policy w path fmt)) =
    if is_dict v then [] else ["Policy file must contain a dictionary."].
Proof.
  intros Hopen Hfmt Hparse.
  by_format fmt; try discriminate; injection Hfmt as <-;
    unfold_python; cbn; rewrite Hopen; cbn; rewrite Hparse; cbn;
    destruct (is_dict v); reflexivity.
Qed.

(** C2.  When the policy file opens and the parser selected by the format
    returns a value, [load_policy] returns exactly that value, logging
    nothing, if it is a dictionary; otherwise it logs and raises the
    ValueError of the shape check, "Policy file must contain a
    dictionary.". *)
Theorem load_policy_returns_parsed_mapping
    (w : World) (path fmt text : string) (parse : string -> outcome value)
    (v : value) :
  open_file w path = Ret text ->
  parser_for w fmt = Some parse ->
  parse text = Ret v ->
  (is_dict v = true ->
   result (load_policy w path fmt) = Ret v /\
   errors_logged (trace (load_policy w path fmt)) = []) /\
  (is_dict v = false ->
   result (load_policy w path fmt) =
     Raise (Exn.make Exn.ValueError "Policy file must contain a dictionary.") /\
   errors_logged (trace (load_policy w path fmt)) =
     ["Policy file must contain a dictionary."]).
Proof.
  intros Hopen Hfmt Hparse.
  rewrite (load_policy_when_parsed w path fmt text parse v Hopen Hfmt Hparse).
  rewrite (errors_logged_load_policy_when_parsed w path fmt text parse v
             Hopen Hfmt Hparse).
  split; intros ->; split; reflexivity.
Qed.

Lemma load_policy_returns_parsed_mapping_witness :
  (open_file Sample.world "alice.json" = Ret Sample.json_alice /\
   parser_for Sample.world "json" = Some (json_load Sample.world) /\
   json_load Sample.world Sample.json_alice = Ret Schema.alice) /\
  result (load_policy Sample.world "alice.json" "json") = Ret Schema.alice /\
  result (load_policy Sample.world "list.json" "yaml") =
    Raise (Exn.make Exn.ValueError "Policy file must contain a dictionary.").
Proof.
  split; [repeat split|]. split.
  - apply (load_policy_returns_parsed_mapping Sample.world "alice.json" "json"
             Sample.json_alice (json_load Sample.world) Schema.alice);
      reflexivity.
  - apply (load_policy_returns_parsed_mapping Sample.world "list.json" "yaml"
             Sample.json_list (yaml_safe_load Sample.world) (VList [VInt 1; VInt 2]));
      reflexivity.
Defined.

(** What [load_policy] does when [open] raises: the exception leaves the
    function whatever the format. *)
Lemma load_policy_open_raises (w : World) (path fmt : string) (e : exn) :
  open_file w path = Raise e ->
  result (load_policy w path fmt) = Raise e.
Proof.
  intros Hopen. unfold_python. cbn. rewrite Hopen. cbn.
  destruct (Exn.isinstance e Exn.FileNotFoundError); [reflexivity|].
  destruct (Exn.isinstance e Exn.ValueError); reflexivity.
Qed.

(** C4, as stated, fails: the file is opened before the format is looked at,
    so with a path that does not exist an unknown format is never reported;
    the [FileNotFoundError] of [open] is raised instead. *)
Lemma invalid_format_on_missing_file :
  ~ (forall (w : World) (path fmt : string),
        fmt <> "yaml" -> fmt <> "json" ->
        exists msg,
          result (load_policy w path fmt) = Raise (Exn.make Exn.ValueError msg)).
Proof.
  intros H.
  destruct (H Sample.world "missing.yaml" "xml") as [msg Hmsg];
    [discriminate | discriminate |].
  vm_compute in Hmsg. discriminate.
Qed.

(** C4, amended.  With a format that is neither "yaml" nor "json":
    if the file opens, [load_policy] logs and raises the ValueError
    "Invalid format. Must be 'yaml' or 'json'." without calling a parser;
    if [open] raises, that exception is what [load_policy] raises. *)
Theorem load_policy_invalid_format (w : World) (path fmt : string) :
  fmt <> "yaml" -> fmt <> "json" ->
  match open_file w path with
  | Ret _ =>
      load_policy w path fmt =
        ([EvOpen path; EvLog ERROR "Invalid format. Must be 'yaml' or 'json'."],
         Raise (Exn.make Exn.ValueError "Invalid format. Must be 'yaml' or 'json'."))
  | Raise e => result (load_policy w path fmt) = Raise e
  end.
Proof.
  intros Hy Hj.
  destruct (open_file w path) as [text|e] eqn:Hopen.
  - unfold_python. cbn. rewrite Hopen. cbn.
    destruct (String.eqb_spec fmt "yaml"); [contradiction|].
    destruct (String.eqb_spec fmt "json"); [contradiction|].
    reflexivity.
  - now apply load_policy_open_raises.
Qed.

Lemma load_policy_invalid_format_witness :
  ("xml" <> "yaml" /\ "xml" <> "json") /\
  load_policy Sample.world "alice.yaml" "xml" =
    ([EvOpen "alice.yaml"; EvLog ERROR "Invalid format. Must be 'yaml' or 'json'."],
     Raise (Exn.make Exn.ValueError "Invalid format. Must be 'yaml' or 'json'.")).
Proof.
  split; [split; discriminate|].
  apply (load_policy_invalid_format Sample.world "alice.yaml" "xml"); discriminate.
Defined.

(** C6, as stated, fails in its second half: nothing in [load_policy] ties
    the outcome of the JSON parser to that of the YAML parser.  A JSON
    document indented with tabs is rejected by [yaml.safe_load] and accepted
    by [json.load], so the same file fails as "yaml" and loads as "json". *)
Lemma invalid_yaml_may_load_as_json :
  ~ (forall (w : World) (path text : string) (e : exn),
        open_file w path = Ret text ->
        yaml_safe_load w text = Raise e ->
        Exn.isinstance e Exn.YAMLError = true ->
        result (load_policy w path "yaml") = Raise e /\
        exists e', result (load_policy w path "json") = Raise e').
Proof.
  intros H.
  destruct (H Sample.world "tabbed.json" Sample.json_alice_tabbed
              (Exn.make Exn.ScannerError
                 "while scanning for the next token found character '\t' that cannot start any token"))
    as [_ [e' He']]; try reflexivity.
  vm_compute in He'. discriminate.
Qed.

(** C6, amended.  When the file opens and [yaml.safe_load] raises a
    [YAMLError], [load_policy] with format "yaml" logs the parser's message
    and raises that same exception.  With format "json" the same file fails
    exactly when [json.load] raises or returns something that is not a
    dictionary; otherwise it loads. *)
Theorem load_policy_invalid_yaml
    (w : World) (path text : string) (e : exn) :
  open_file w path = Ret text ->
  yaml_safe_load w text = Raise e ->
  Exn.isinstance e Exn.YAMLError = true ->
  load_policy w path "yaml" =
    ([EvOpen path; EvYamlLoad text;
      EvLog ERROR ("Error parsing YAML file: " ++ Exn.str e)%string],
     Raise e) /\
  result (load_policy w path "json") =
    match json_load w text with
    | Raise e' => Raise e'
    | Ret v =>
        if is_dict v then Ret v
        else Raise (Exn.make Exn.ValueError "Policy file must contain a dictionary.")
    end.
Proof.
  intros Hopen Hyaml Hcls.
  destruct (isinstance_YAMLError_disjoint e Hcls) as (Hfnf & Hval & _).
  split.
  - unfold_python. cbn. rewrite Hopen. cbn. rewrite Hyaml. cbn.
    rewrite Hcls. cbn. rewrite Hfnf, Hval. reflexivity.
  - unfold_python. cbn. rewrite Hopen. cbn.
    destruct (json_load w text) as [v|e'] eqn:Hjson; cbn.
    + destruct (is_dict v); reflexivity.
    + destruct (Exn.isinstance e' Exn.JSONDecodeError) eqn:Hj; cbn.
      * rewrite (isinstance_JSONDecodeError_ValueError e' Hj).
        rewrite (isinstance_ValueError_not_FileNotFoundError e'
                   (isinstance_JSONDecodeError_ValueError e' Hj)).
        reflexivity.
      * destruct (Exn.isinstance e' Exn.FileNotFoundError); [reflexivity|].
        destruct (Exn.isinstance e' Exn.ValueError); reflexivity.
Qed.

Lemma load_policy_invalid_yaml_witness :
  (open_file Sample.world "tabbed.json" = Ret Sample.json_alice_tabbed /\
   Exn.isinstance
     (Exn.make Exn.ScannerError
        "while scanning for the next token found character '\t' that cannot start any token")
     Exn.YAMLError = true) /\
  result (load_policy Sample.world "tabbed.json" "json") = Ret Schema.alice.
Proof.
  split; [split; reflexivity|].
  apply (load_policy_invalid_yaml Sample.world "tabbed.json" Sample.json_alice_tabbed
           (Exn.make Exn.ScannerError
              "while scanning for the next token found character '\t' that cannot start any token"));
    reflexivity.
Defined.

(** C8.  [load_schema] returns whatever [json.load] returns, dictionary or
    not, after opening the file and calling the parser once; [load_policy]
    on the same file rejects a root that is not a dictionary. *)
Theorem load_schema_returns_any_root
    (w : World) (path text : string) (v : value) :
  open_file w path = Ret text ->
  json_load w text = Ret v ->
  load_schema w path = ([EvOpen path; EvJsonLoad text], Ret v) /\
  (is_dict v = false ->
   result (load_policy w path "json") =
     Raise (Exn.make Exn.ValueError "Policy file must contain a dictionary.")).
Proof.
  intros Hopen Hjson. split.
  - unfold_python. cbn. rewrite Hopen. cbn. rewrite Hjson. reflexivity.
  - intros Hshape.
    rewrite (load_policy_when_parsed w path "json" text (json_load w) v Hopen
               eq_refl Hjson), Hshape.
    reflexivity.
Qed.

Lemma load_schema_returns_any_root_witness :
  (open_file Sample.world "list.json" = Ret Sample.json_list /\
   json_load Sample.world Sample.json_list = Ret (VList [VInt 1; VInt 2])) /\
  load_schema Sample.world "list.json" =
    ([EvOpen "list.json"; EvJsonLoad Sample.json_list], Ret (VList [VInt 1; VInt 2])).
Proof.
  split; [split; reflexivity|].
  apply (load_schema_returns_any_root Sample.world "list.json" Sample.json_list
           (VList [VInt 1; VInt 2])); reflexivity.
Defined.

Ltac split_cases :=
  repeat (cbn;
          match goal with
          | |- context [match open_file ?w ?p with _ => _ end] =>
              destruct (open_file w p)
          | |- context [match yaml_safe_load ?w ?x with _ => _ end] =>
              destruct (yaml_safe_load w x)
          | |- context [match json_load ?w ?x with _ => _ end] =>
              destruct (json_load w x)
          | |- context [match jsonschema_validate ?w ?x ?y with _ => _ end] =>
              destruct (jsonschema_validate w x y)
          | |- context [if String.eqb ?a ?b then _ else _] =>
              destruct (String.eqb a b)
          | |- context [if Exn.isinstance ?e ?c then _ else _] =>
              destruct (Exn.isinstance e c)
          | |- context [if negb (is_dict ?v) then _ else _] =>
              destruct (is_dict v)
          end).



(** ** The driver *)

Lemma trace_bind {A B} (m : M A) (k : A -> M B) :
  trace (bind m k) =
    trace m ++ match result m with Ret a => trace (k a) | Raise _ => [] end.
Proof.
  destruct m as [t [a|e]]; cbn.
  - now destruct (k a).
  - now rewrite app_nil_r.
Qed.

Lemma result_bind {A B} (m : M A) (k : A -> M B) :
  result (bind m k) =
    match result m with Ret a => result (k a) | Raise e => Raise e end.
Proof. destruct m as [t [a|e]]; cbn; [now destruct (k a) | reflexivity]. Qed.

Lemma trace_try_except {A} (m : M A) (hs : list (clause A)) :
  trace (try_except m hs) =
    trace m ++
    match result m with
    | Ret _ => []
    | Raise e => match select e hs with Some h => trace (h e) | None => [] end
    end.
Proof.
  destruct m as [t [a|e]]; cbn.
  - now rewrite app_nil_r.
  - destruct (select e hs) as [h|]; cbn; [now destruct (h e) | now rewrite app_nil_r].
Qed.

Lemma result_try_except {A} (m : M A) (hs : list (clause A)) :
  result (try_except m hs) =
    match result m with
    | Ret a => Ret a
    | Raise e => match select e hs with Some h => result (h e) | None => Raise e end
    end.
Proof.
  destruct m as [t [a|e]]; cbn; [reflexivity|].
  destruct (select e hs) as [h|]; cbn; [now destruct (h e) | reflexivity].
Qed.

Lemma main_unfold (w : World) (args : Args) :
  main w args =
    (emit (EvSetLevel (log_level args)) ;; try_except (main_body w args) main_clauses).
Proof. reflexivity. Qed.

Lemma trace_main (w : World) (args : Args) :
  trace (main w args) =
    EvSetLevel (log_level args) :: trace (try_except (main_body w args) main_clauses).
Proof. rewrite main_unfold, trace_bind. reflexivity. Qed.

Lemma result_main (w : World) (args : Args) :
  result (main w args) = result (try_except (main_body w args) main_clauses).
Proof. rewrite main_unfold, result_bind. reflexivity. Qed.

(** Every clause of [main] only logs and prints, then leaves through
    [sys.exit(1)]. *)
Lemma main_clause_selected (e : exn) (h : exn -> M unit) :
  select e main_clauses = Some h ->
  opened (trace (h e)) = [] /\
  validated (trace (h e)) = [] /\
  (exists line, printed (trace (h e)) = [line]) /\
  result (h e) = Raise (Exn.make (Exn.SystemExit 1) EmptyString).
Proof.
  unfold main_clauses. cbn [select].
  repeat match goal with
         | |- (if ?b then _ else _) = _ -> _ => destruct b
         end;
    intros [= <-]; cbn; eauto 6.
Qed.

Lemma select_main_clauses_None (e : exn) :
  select e main_clauses = None -> Exn.isinstance e Exn.Exception = false.
Proof.
  unfold main_clauses. cbn [select].
  repeat match goal with
         | |- (if ?b then _ else _) = _ -> _ => destruct b eqn:?
         end; congruence.
Qed.

(** [load_policy] opens its file once and nothing else, never calls the
    engine and prints nothing. *)
Lemma load_policy_effects (w : World) (path fmt : string) :
  opened (trace (load_policy w path fmt)) = [path] /\
  validated (trace (load_policy w path fmt)) = [] /\
  printed (trace (load_policy w path fmt)) = [].
Proof. unfold_python. split_cases; auto. Qed.

Lemma load_schema_effects (w : World) (path : string) :
  opened (trace (load_schema w path)) = [path] /\
  validated (trace (load_schema w path)) = [] /\
  printed (trace (load_schema w path)) = [].
Proof. unfold_python. split_cases; auto. Qed.

Lemma validate_policy_effects (w : World) (policy schema : value) :
  opened (trace (validate_policy w policy schema)) = [] /\
  validated (trace (validate_policy w policy schema)) = [(policy, schema)] /\
  printed (trace (validate_policy w policy schema)) = [].
Proof. unfold_python. split_cases; auto. Qed.

(** What [main] did, read off the outcomes of its three steps. *)
Lemma trace_main_body (w : World) (args : Args) :
  trace (main_body w args) =
    trace (load_policy w (policy_file args) (format args)) ++
    match result (load_policy w (policy_file args) (format args)) with
    | Raise _ => []
    | Ret policy =>
        trace (load_schema w (schema_file args)) ++
        match result (load_schema w (schema_file args)) with
        | Raise _ => []
        | Ret schema =>
            trace (validate_policy w policy schema) ++
            match result (validate_policy w policy schema) with
            | Raise _ => []
            | Ret _ => [EvPrint "Policy validation successful."]
            end
        end
    end.
Proof.
  unfold main_body. rewrite trace_bind.
  destruct (result (load_policy _ _ _)) as [policy|e]; [|reflexivity].
  rewrite trace_bind.
  destruct (result (load_schema _ _)) as [schema|e]; [|reflexivity].
  rewrite trace_bind.
  destruct (result (validate_policy _ _ _)) as [[]|e]; reflexivity.
Qed.

Lemma result_main_body (w : World) (args : Args) :
  result (main_body w args) =
    match result (load_policy w (policy_file args) (format args)) with
    | Raise e => Raise e
    | Ret policy =>
        match result (load_schema w (schema_file args)) with
        | Raise e => Raise e
        | Ret schema =>
            match result (validate_policy w policy schema) with
            | Raise e => Raise e
            | Ret _ => Ret tt
            end
        end
    end.
Proof.
  unfold main_body. rewrite result_bind.
  destruct (result (load_policy _ _ _)) as [policy|e]; [|reflexivity].
  rewrite result_bind.
  destruct (result (load_schema _ _)) as [schema|e]; [|reflexivity].
  rewrite result_bind.
  destruct (result (validate_policy _ _ _)) as [[]|e]; reflexivity.
Qed.

(** The clauses of [main] add no file access and no engine call. *)
Lemma main_clauses_effects (m : M unit) :
  opened (trace (try_except m main_clauses)) = opened (trace m) /\
  validated (trace (try_except m main_clauses)) = validated (trace m).
Proof.
  rewrite trace_try_except, opened_app, validated_app.
  destruct (result m) as [a|e]; [now rewrite !app_nil_r|].
  destruct (select e main_clauses) as [h|] eqn:Hsel; [|now rewrite !app_nil_r].
  destruct (main_clause_selected e h Hsel) as (-> & -> & _).
  now rewrite !app_nil_r.
Qed.

(** C5.  [main] runs its three steps in order and stops at the first one
    that raises.  If [load_policy] raises, the policy file is the only file
    opened and the engine is never called.  If [load_policy] returns and
    [load_schema] raises, the policy file and then the schema file are
    opened and the engine is never called.  Only if both return is the
    engine called, once, on the two loaded values. *)
Theorem main_short_circuits (w : World) (args : Args) :
  match result (load_policy w (policy_file args) (format args)) with
  | Raise _ =>
      opened (trace (main w args)) = [policy_file args] /\
      validated (trace (main w args)) = []
  | Ret policy =>
      match result (load_schema w (schema_file args)) with
      | Raise _ =>
          opened (trace (main w args)) = [policy_file args; schema_file args] /\
          validated (trace (main w args)) = []
      | Ret schema =>
          opened (trace (main w args)) = [policy_file args; schema_file args] /\
          validated (trace (main w args)) = [(policy, schema)]
      end
  end.
Proof.
  rewrite trace_main. cbn [opened validated].
  destruct (main_clauses_effects (main_body w args)) as [-> ->].
  rewrite trace_main_body.
  destruct (load_policy_effects w (policy_file args) (format args)) as (Hop & Hvp & _).
  destruct (load_schema_effects w (schema_file args)) as (Hos & Hvs & _).
  destruct (result (load_policy _ _ _)) as [policy|e].
  - destruct (result (load_schema _ _)) as [schema|e].
    + destruct (validate_policy_effects w policy schema) as (Hov & Hvv & _).
      rewrite !opened_app, !validated_app, Hop, Hvp, Hos, Hvs, Hov, Hvv.
      destruct (result (validate_policy _ _ _)); split; reflexivity.
    + rewrite !opened_app, !validated_app, Hop, Hvp, Hos, Hvs. split; reflexivity.
  - rewrite !app_nil_r. split; assumption.
Qed.

Lemma printed_main_body (w : World) (args : Args) :
  printed (trace (main_body w args)) =
    match result (main_body w args) with
    | Ret _ => ["Policy validation successful."]
    | Raise _ => []
    end.
Proof.
  rewrite trace_main_body, result_main_body.
  destruct (load_policy_effects w (policy_file args) (format args)) as (_ & _ & Hp).
  destruct (load_schema_effects w (schema_file args)) as (_ & _ & Hs).
  rewrite printed_app, Hp.
  destruct (result (load_policy _ _ _)) as [policy|e]; [|reflexivity].
  rewrite printed_app, Hs.
  destruct (result (load_schema _ _)) as [schema|e]; [|reflexivity].
  destruct (validate_policy_effects w policy schema) as (_ & _ & Hv).
  rewrite printed_app, Hv.
  destruct (result (validate_policy _ _ _)); reflexivity.
Qed.

(** When the [try] block of [main] completes, the success line is the one
    line printed and the process ends with status 0. *)
Lemma main_success (w : World) (args : Args) :
  result (main_body w args) = Ret tt ->
  printed (trace (main w args)) = ["Policy validation successful."] /\
  process_status (main w args) = Exited 0.
Proof.
  intros Hbody. split.
  - rewrite trace_main. cbn [printed].
    rewrite trace_try_except, printed_app, printed_main_body, Hbody.
    reflexivity.
  - unfold process_status. rewrite result_main, result_try_except, Hbody.
    reflexivity.
Qed.

(** When the [try] block raises [e] and a clause [h] is selected for it, the
    process prints what [h] prints and ends with status 1. *)
Lemma main_failure (w : World) (args : Args) (e : exn) (h : exn -> M unit) :
  result (main_body w args) = Raise e ->
  select e main_clauses = Some h ->
  printed (trace (main w args)) = printed (trace (h e)) /\
  process_status (main w args) = Exited 1.
Proof.
  intros Hbody Hsel. split.
  - rewrite trace_main. cbn [printed].
    rewrite trace_try_except, printed_app, printed_main_body, Hbody, Hsel.
    reflexivity.
  - unfold process_status. rewrite result_main, result_try_except, Hbody, Hsel.
    destruct (main_clause_selected e h Hsel) as (_ & _ & _ & ->).
    reflexivity.
Qed.

(** The exit status tells success from failure and nothing more: 0 exactly
    when the three steps all returned, 1 for every exception derived from
    [Exception], whatever its class. *)
Lemma main_exit_status (w : World) (args : Args) :
  match result (main_body w args) with
  | Ret _ => process_status (main w args) = Exited 0
  | Raise e =>
      if Exn.isinstance e Exn.Exception
      then process_status (main w args) = Exited 1 /\
           exists line, printed (trace (main w args)) = [line]
      else process_status (main w args) = Traceback e \/
           exists n, Exn.cls e = Exn.SystemExit n
  end.
Proof.
  destruct (result (main_body w args)) as [[]|e] eqn:Hbody.
  - now apply main_success.
  - destruct (select e main_clauses) as [h|] eqn:Hsel.
    + destruct (main_failure w args e h Hbody Hsel) as [Hp Hs].
      destruct (main_clause_selected e h Hsel) as (_ & _ & [line Hl] & _).
      destruct (Exn.isinstance e Exn.Exception) eqn:Hexc.
      * split; [assumption|]. exists line. congruence.
      * revert Hsel. unfold main_clauses. cbn [select]. rewrite Hexc.
        destruct e as [c s]; destruct c; cbn in *; congruence.
    + rewrite (select_main_clauses_None e Hsel).
      unfold process_status.
      rewrite result_main, result_try_except, Hbody, Hsel.
      destruct e as [c s]; destruct c; cbn; eauto.
Qed.

(** The clause [except json.JSONDecodeError] of [main] is never selected:
    the clause [except ValueError] above it takes every [JSONDecodeError]. *)
Lemma main_json_clause_unreachable (w : World) (args : Args) :
  ~ In "Error parsing JSON. See logs for details." (printed (trace (main w args))).
Proof.
  destruct (result (main_body w args)) as [[]|e] eqn:Hbody.
  - destruct (main_success w args Hbody) as [-> _].
    cbn. intros [H|[]]. discriminate.
  - destruct (select e main_clauses) as [h|] eqn:Hsel.
    + destruct (main_failure w args e h Hbody Hsel) as [-> _].
      revert Hsel. unfold main_clauses. cbn [select].
      destruct (Exn.isinstance e Exn.FileNotFoundError);
        [intros [= <-]; cbn; intros [H|[]]; discriminate|].
      destruct (Exn.isinstance e Exn.ValueError) eqn:Hv;
        [intros [= <-]; cbn; intros [H|[]]; discriminate|].
      destruct (Exn.isinstance e Exn.YAMLError);
        [intros [= <-]; cbn; intros [H|[]]; discriminate|].
      destruct (Exn.isinstance e Exn.JSONDecodeError) eqn:Hj.
      { rewrite (isinstance_JSONDecodeError_ValueError e Hj) in Hv. discriminate. }
      destruct (Exn.isinstance e Exn.ValidationError);
        [intros [= <-]; cbn; intros [H|[]]; discriminate|].
      destruct (Exn.isinstance e Exn.Exception);
        [intros [= <-]; cbn; intros [H|[]]; discriminate|].
      discriminate.
    + rewrite trace_main. cbn [printed].
      rewrite trace_try_except, printed_app, printed_main_body, Hbody, Hsel.
      cbn. auto.
Qed.

(** C9.  When the policy file opens and the selected parser returns [None]
    (a null document), [load_policy] calls the parser once, logs and raises
    the ValueError of the shape check, "Policy file must contain a
    dictionary."; [main] then prints the invalid-input line and the process
    ends with status 1. *)
Theorem null_document_is_invalid_input
    (w : World) (args : Args) (text : string) (parse : string -> outcome value) :
  open_file w (policy_file args) = Ret text ->
  parser_for w (format args) = Some parse ->
  parse text = Ret VNone ->
  result (load_policy w (policy_file args) (format args)) =
    Raise (Exn.make Exn.ValueError "Policy file must contain a dictionary.") /\
  errors_logged (trace (load_policy w (policy_file args) (format args))) =
    ["Policy file must contain a dictionary."] /\
  printed (trace (main w args)) =
    ["Invalid input provided.  See logs for details."] /\
  process_status (main w args) = Exited 1.
Proof.
  intros Hopen Hfmt Hparse.
  assert (Hload : result (load_policy w (policy_file args) (format args)) =
                    Raise (Exn.make Exn.ValueError
                             "Policy file must contain a dictionary.")).
  { now rewrite (load_policy_when_parsed w (policy_file args) (format args)
                   text parse VNone Hopen Hfmt Hparse). }
  split; [assumption|]. split.
  - now rewrite (errors_logged_load_policy_when_parsed w (policy_file args)
                   (format args) text parse VNone Hopen Hfmt Hparse).
  - apply (main_failure w args
             (Exn.make Exn.ValueError "Policy file must contain a dictionary.")
             (fun _ => leave_with "Invalid input provided.  See logs for details.")).
    + rewrite result_main_body, Hload. reflexivity.
    + reflexivity.
Qed.

Lemma null_document_is_invalid_input_witness :
  (open_file Sample.world "empty.yaml" = Ret EmptyString /\
   parser_for Sample.world "yaml" = Some (yaml_safe_load Sample.world) /\
   yaml_safe_load Sample.world EmptyString = Ret VNone) /\
  printed (trace (main Sample.world (Sample.args "empty.yaml" "schema.json" "yaml"))) =
    ["Invalid input provided.  See logs for details."] /\
  process_status (main Sample.world (Sample.args "null.json" "schema.json" "json")) =
    Exited 1.
Proof.
  split; [repeat split|]. split.
  - apply (null_document_is_invalid_input Sample.world
             (Sample.args "empty.yaml" "schema.json" "yaml") EmptyString
             (yaml_safe_load Sample.world)); reflexivity.
  - apply (null_document_is_invalid_input Sample.world
             (Sample.args "null.json" "schema.json" "json") Sample.json_null
             (json_load Sample.world)); reflexivity.
Defined.

(** C10.  Suppose both files loaded and the engine raises an exception [e]
    derived from [Exception] that none of the five specific clauses of
    [main] names ([SchemaError] is one).  [validate_policy] lets it through
    without logging: its [except ValidationError] clause does not apply.
    [main] handles it in its last clause: it logs "An unexpected error
    occurred: ...", prints the unexpected-error line and the process ends
    with status 1. *)
Theorem engine_error_reaches_catch_all
    (w : World) (args : Args) (policy schema : value) (e : exn) :
  result (load_policy w (policy_file args) (format args)) = Ret policy ->
  result (load_schema w (schema_file args)) = Ret schema ->
  jsonschema_validate w policy schema = Raise e ->
  Exn.isinstance e Exn.Exception = true ->
  named_by_main e = false ->
  validate_policy w policy schema = ([EvValidate policy schema], Raise e) /\
  In (EvLog ERROR ("An unexpected error occurred: " ++ Exn.str e)%string)
     (trace (main w args)) /\
  printed (trace (main w args)) =
    ["An unexpected error occurred.  See logs for details."] /\
  process_status (main w args) = Exited 1.
Proof.
  intros Hlp Hls Hengine Hexc Hnamed.
  unfold named_by_main in Hnamed.
  apply orb_false_iff in Hnamed. destruct Hnamed as [Hnamed Hvalidation].
  apply orb_false_iff in Hnamed. destruct Hnamed as [Hnamed Hjson].
  apply orb_false_iff in Hnamed. destruct Hnamed as [Hnamed Hyaml].
  apply orb_false_iff in Hnamed. destruct Hnamed as [Hnotfound Hvalue].
  assert (Hvp : validate_policy w policy schema = ([EvValidate policy schema], Raise e)).
  { unfold_python. cbn. rewrite Hengine. cbn.
    rewrite Hvalidation. reflexivity. }
  assert (Hbody : result (main_body w args) = Raise e).
  { rewrite result_main_body, Hlp, Hls, Hvp. reflexivity. }
  assert (Hsel : select e main_clauses
                 = Some (fun e =>
                           logging_error ("An unexpected error occurred: " ++ Exn.str e)%string ;;
                           leave_with "An unexpected error occurred.  See logs for details.")).
  { unfold main_clauses. cbn [select].
    rewrite Hnotfound, Hvalue, Hyaml, Hjson, Hvalidation, Hexc.
    reflexivity. }
  split; [assumption|]. split.
  - rewrite trace_main, trace_try_except, Hbody, Hsel.
    right. apply in_or_app. right. cbn. auto.
  - apply (main_failure w args e _ Hbody Hsel).
Qed.

Lemma SchemaError_not_named (message : string) :
  named_by_main (Exn.make Exn.SchemaError message) = false /\
  Exn.isinstance (Exn.make Exn.SchemaError message) Exn.ValidationError = false /\
  Exn.isinstance (Exn.make Exn.SchemaError message) Exn.Exception = true.
Proof. repeat split. Qed.

Lemma engine_error_reaches_catch_all_witness :
  (jsonschema_validate Sample.world Schema.alice Sample.bad_schema =
     Raise (Exn.make Exn.SchemaError "schema is not valid") /\
   named_by_main (Exn.make Exn.SchemaError "schema is not valid") = false) /\
  printed (trace (main Sample.world (Sample.args "alice.yaml" "bad_schema.json" "yaml"))) =
    ["An unexpected error occurred.  See logs for details."] /\
  process_status (main Sample.world (Sample.args "alice.yaml" "bad_schema.json" "yaml")) =
    Exited 1.
Proof.
  split; [split; reflexivity|].
  apply (engine_error_reaches_catch_all Sample.world
           (Sample.args "alice.yaml" "bad_schema.json" "yaml")
           Schema.alice Sample.bad_schema
           (Exn.make Exn.SchemaError "schema is not valid")); reflexivity.
Defined.


(** ** Validation *)

(** [validate_policy] adds nothing to the engine's answer: it returns when
    the engine returns and raises what the engine raises. *)
Lemma validate_policy_result (w : World) (policy schema : value) :
  result (validate_policy w policy schema) = jsonschema_validate w policy schema.
Proof.
  unfold_python. cbn.
  destruct (jsonschema_validate w policy schema) as [[]|e]; cbn; [reflexivity|].
  destruct (Exn.isinstance e Exn.ValidationError); reflexivity.
Qed.






(** C3, at the input where the code departs from it.  The policy file holds
    the one character "{" and the format is "json": [json.load] raises a
    [JSONDecodeError], which is a [ValueError], so [main] takes its
    [except ValueError] clause and prints the invalid-input line; the line
    of the [except json.JSONDecodeError] clause is not printed.  The exit
    status is 1 as claimed. *)
Theorem json_error_prints_invalid_input :
  run Sample.world (Sample.args "unclosed.json" "schema.json" "json") =
    ([EvSetLevel "INFO";
      EvOpen "unclosed.json";
      EvJsonLoad "{";
      EvLog ERROR
        "Error parsing JSON file: Expecting property name enclosed in double quotes: line 1 column 2 (char 1)";
      EvLog ERROR
        "Expecting property name enclosed in double quotes: line 1 column 2 (char 1)";
      EvPrint "Invalid input provided.  See logs for details."],
     Exited 1) /\
  Exn.isinstance
    (Exn.make Exn.JSONDecodeError
       "Expecting property name enclosed in double quotes: line 1 column 2 (char 1)")
    Exn.ValueError = true /\
  printed (trace (main Sample.world (Sample.args "alice.yaml" "unclosed.json" "yaml"))) =
    ["Invalid input provided.  See logs for details."].
Proof. repeat split. Qed.

(** * Further properties of the loaders and the driver *)

Lemma errors_logged_app (t u : list event) :
  errors_logged (t ++ u) = errors_logged t ++ errors_logged u.
Proof.
  induction t as [|ev t IH]; [reflexivity|].
  destruct ev as [| | | | |[] m|]; simpl; now rewrite IH.
Qed.

Lemma yaml_loaded_app (t u : list event) :
  yaml_loaded (t ++ u) = yaml_loaded t ++ yaml_loaded u.
Proof.
  induction t as [|ev t IH]; [reflexivity|].
  destruct ev; simpl; now rewrite IH.
Qed.

Lemma json_loaded_app (t u : list event) :
  json_loaded (t ++ u) = json_loaded t ++ json_loaded u.
Proof.
  induction t as [|ev t IH]; [reflexivity|].
  destruct ev; simpl; now rewrite IH.
Qed.

Lemma logged_app (t u : list event) : logged (t ++ u) = logged t ++ logged u.
Proof.
  induction t as [|ev t IH]; [reflexivity|].
  destruct ev; simpl; now rewrite IH.
Qed.

(** The handlers of [load_policy] log and re-raise; they never turn one
    outcome into another. *)
Lemma load_policy_result_eq (w : World) (path fmt : string) :
  result (load_policy w path fmt) =
    match open_file w path with
    | Raise e => Raise e
    | Ret text =>
        match parser_for w fmt with
        | None =>
            Raise (Exn.make Exn.ValueError "Invalid format. Must be 'yaml' or 'json'.")
        | Some parse =>
            match parse text with
            | Raise e => Raise e
            | Ret v =>
                if is_dict v then Ret v
                else Raise (Exn.make Exn.ValueError
                              "Policy file must contain a dictionary.")
            end
        end
    end.
Proof.
  unfold parser_for. unfold_python. cbn.
  destruct (open_file w path) as [text|e]; cbn.
  - destruct (String.eqb fmt "yaml"); [|destruct (String.eqb fmt "json")]; cbn.
    + destruct (yaml_safe_load w text) as [v|e]; cbn.
      * destruct (is_dict v); reflexivity.
      * split_cases; reflexivity.
    + destruct (json_load w text) as [v|e]; cbn.
      * destruct (is_dict v); reflexivity.
      * split_cases; reflexivity.
    + reflexivity.
  - split_cases; reflexivity.
Qed.

Lemma load_schema_result_eq (w : World) (path : string) :
  result (load_schema w path) =
    match open_file w path with
    | Raise e => Raise e
    | Ret text => json_load w text
    end.
Proof.
  unfold_python. cbn.
  destruct (open_file w path) as [text|e]; cbn.
  - destruct (json_load w text) as [v|e]; cbn; [reflexivity|].
    split_cases; reflexivity.
  - split_cases; reflexivity.
Qed.

(** X1.  Whatever [load_policy] returns is a dictionary that the parser
    selected by the format produced from the opened file; the format was
    "yaml" or "json", and no error was logged on the way. *)
Theorem load_policy_success_inversion
    (w : World) (path fmt : string) (v : value) :
  result (load_policy w path fmt) = Ret v ->
  is_dict v = true /\
  (fmt = "yaml" \/ fmt = "json") /\
  (exists text parse,
      open_file w path = Ret text /\
      parser_for w fmt = Some parse /\
      parse text = Ret v) /\
  errors_logged (trace (load_policy w path fmt)) = [].
Proof.
  intros Hload.
  pose proof Hload as Hcases. rewrite load_policy_result_eq in Hcases.
  destruct (open_file w path) as [text|e] eqn:Hopen; [|discriminate].
  destruct (parser_for w fmt) as [parse|] eqn:Hfmt; [|discriminate].
  destruct (parse text) as [v0|e] eqn:Hparse; [|discriminate].
  destruct (is_dict v0) eqn:Hdict; [|discriminate].
  injection Hcases as <-.
  split; [assumption|]. split; [|split].
  - revert Hfmt. unfold parser_for.
    destruct (String.eqb_spec fmt "yaml"); [auto|].
    destruct (String.eqb_spec fmt "json"); [auto|discriminate].
  - exists text, parse. auto.
  - rewrite (errors_logged_load_policy_when_parsed w path fmt text parse v0
               Hopen Hfmt Hparse), Hdict.
    reflexivity.
Qed.

Lemma load_policy_success_inversion_witness :
  result (load_policy Sample.world "alice.yaml" "yaml") = Ret Schema.alice /\
  is_dict Schema.alice = true.
Proof.
  split; [reflexivity|].
  apply (load_policy_success_inversion Sample.world "alice.yaml" "yaml" Schema.alice).
  reflexivity.
Defined.

(** X2.  An exception leaving [load_policy] is the one [open] raised, the
    one the selected parser raised, or one of the two ValueErrors the
    function itself makes: unknown format, root not a dictionary.  The
    handlers never replace an exception by another. *)
Theorem load_policy_raise_origin
    (w : World) (path fmt : string) (e : exn) :
  result (load_policy w path fmt) = Raise e ->
  open_file w path = Raise e \/
  (exists text parse,
      open_file w path = Ret text /\
      parser_for w fmt = Some parse /\
      parse text = Raise e) \/
  (fmt <> "yaml" /\ fmt <> "json" /\
   e = Exn.make Exn.ValueError "Invalid format. Must be 'yaml' or 'json'.") \/
  (exists text parse v,
      open_file w path = Ret text /\
      parser_for w fmt = Some parse /\
      parse text = Ret v /\
      is_dict v = false /\
      e = Exn.make Exn.ValueError "Policy file must contain a dictionary.").
Proof.
  rewrite load_policy_result_eq.
  destruct (open_file w path) as [text|e0] eqn:Hopen; [|intros [= <-]; auto].
  destruct (parser_for w fmt) as [parse|] eqn:Hfmt.
  - destruct (parse text) as [v|e0] eqn:Hparse.
    + destruct (is_dict v) eqn:Hdict; [discriminate|].
      intros [= <-]. right. right. right. exists text, parse, v. auto.
    + intros [= <-]. right. left. exists text, parse. auto.
  - intros [= <-]. right. right. left.
    revert Hfmt. unfold parser_for.
    destruct (String.eqb_spec fmt "yaml"); [discriminate|].
    destruct (String.eqb_spec fmt "json"); [discriminate|]. auto.
Qed.

Lemma load_policy_raise_origin_witness :
  result (load_policy Sample.world "list.json" "json") =
    Raise (Exn.make Exn.ValueError "Policy file must contain a dictionary.") /\
  (open_file Sample.world "list.json" =
     Raise (Exn.make Exn.ValueError "Policy file must contain a dictionary.") \/
   (exists text parse,
       open_file Sample.world "list.json" = Ret text /\
       parser_for Sample.world "json" = Some parse /\
       parse text =
         Raise (Exn.make Exn.ValueError "Policy file must contain a dictionary.")) \/
   ("json" <> "yaml" /\ "json" <> "json" /\
    Exn.make Exn.ValueError "Policy file must contain a dictionary." =
      Exn.make Exn.ValueError "Invalid format. Must be 'yaml' or 'json'.") \/
   (exists text parse v,
       open_file Sample.world "list.json" = Ret text /\
       parser_for Sample.world "json" = Some parse /\
       parse text = Ret v /\
       is_dict v = false /\
       Exn.make Exn.ValueError "Policy file must contain a dictionary." =
         Exn.make Exn.ValueError "Policy file must contain a dictionary.")).
Proof.
  split; [reflexivity|].
  apply (load_policy_raise_origin Sample.world "list.json" "json"
           (Exn.make Exn.ValueError "Policy file must contain a dictionary.")).
  reflexivity.
Defined.

(** X3.  [load_schema] changes nothing either: its outcome is the outcome
    of [open] followed by [json.load], whatever they return or raise. *)
Theorem load_schema_is_open_then_parse (w : World) (path : string) :
  result (load_schema w path) =
    match open_file w path with
    | Raise e => Raise e
    | Ret text => json_load w text
    end /\
  opened (trace (load_schema w path)) = [path] /\
  yaml_loaded (trace (load_schema w path)) = [] /\
  json_loaded (trace (load_schema w path)) =
    match open_file w path with
    | Raise _ => []
    | Ret text => [text]
    end.
Proof.
  split; [apply load_schema_result_eq|].
  unfold_python. cbn.
  destruct (open_file w path) as [text|e]; cbn.
  - destruct (json_load w text) as [v|e]; cbn; [auto|]. split_cases; auto.
  - split_cases; auto.
Qed.

(** X4.  A JSON syntax error in the policy file is logged twice by
    [load_policy]: once by the clause around [json.load], and once more by
    the outer [except ValueError] clause, since a [JSONDecodeError] is a
    [ValueError].  The exception raised is the parser's. *)
Theorem load_policy_json_error_logged_twice
    (w : World) (path text : string) (e : exn) :
  open_file w path = Ret text ->
  json_load w text = Raise e ->
  Exn.isinstance e Exn.JSONDecodeError = true ->
  load_policy w path "json" =
    ([EvOpen path; EvJsonLoad text;
      EvLog ERROR ("Error parsing JSON file: " ++ Exn.str e)%string;
      EvLog ERROR (Exn.str e)],
     Raise e).
Proof.
  intros Hopen Hjson Hcls.
  pose proof (isinstance_JSONDecodeError_ValueError e Hcls) as Hval.
  pose proof (isinstance_ValueError_not_FileNotFoundError e Hval) as Hfnf.
  unfold_python. cbn. rewrite Hopen. cbn. rewrite Hjson. cbn.
  rewrite Hcls. cbn. rewrite Hfnf, Hval. reflexivity.
Qed.

Lemma load_policy_json_error_logged_twice_witness :
  (open_file Sample.world "unclosed.json" = Ret Sample.json_unclosed /\
   Exn.isinstance
     (Exn.make Exn.JSONDecodeError
        "Expecting property name enclosed in double quotes: line 1 column 2 (char 1)")
     Exn.JSONDecodeError = true) /\
  errors_logged (trace (load_policy Sample.world "unclosed.json" "json")) =
    ["Error parsing JSON file: Expecting property name enclosed in double quotes: line 1 column 2 (char 1)";
     "Expecting property name enclosed in double quotes: line 1 column 2 (char 1)"].
Proof.
  split; [split; reflexivity|].
  rewrite (load_policy_json_error_logged_twice Sample.world "unclosed.json"
             Sample.json_unclosed
             (Exn.make Exn.JSONDecodeError
                "Expecting property name enclosed in double quotes: line 1 column 2 (char 1)"));
    reflexivity.
Defined.

(** X5.  [load_schema] logs a JSON syntax error twice as well: its inner
    clause logs the parser's message and its outer
    [except json.JSONDecodeError] clause logs "Error decoding JSON from"
    with the path.  The exception raised is the parser's. *)
Theorem load_schema_json_error_logged_twice
    (w : World) (path text : string) (e : exn) :
  open_file w path = Ret text ->
  json_load w text = Raise e ->
  Exn.isinstance e Exn.JSONDecodeError = true ->
  load_schema w path =
    ([EvOpen path; EvJsonLoad text;
      EvLog ERROR ("Error parsing JSON file: " ++ Exn.str e)%string;
      EvLog ERROR ("Error decoding JSON from " ++ path)%string],
     Raise e).
Proof.
  intros Hopen Hjson Hcls.
  pose proof (isinstance_JSONDecodeError_ValueError e Hcls) as Hval.
  pose proof (isinstance_ValueError_not_FileNotFoundError e Hval) as Hfnf.
  unfold_python. cbn. rewrite Hopen. cbn. rewrite Hjson. cbn.
  rewrite Hcls. cbn. rewrite Hfnf, Hcls. reflexivity.
Qed.

Lemma load_schema_json_error_logged_twice_witness :
  (open_file Sample.world "unclosed.json" = Ret Sample.json_unclosed /\
   Exn.isinstance
     (Exn.make Exn.JSONDecodeError
        "Expecting property name enclosed in double quotes: line 1 column 2 (char 1)")
     Exn.JSONDecodeError = true) /\
  errors_logged (trace (load_schema Sample.world "unclosed.json")) =
    ["Error parsing JSON file: Expecting property name enclosed in double quotes: line 1 column 2 (char 1)";
     "Error decoding JSON from unclosed.json"].
Proof.
  split; [split; reflexivity|].
  rewrite (load_schema_json_error_logged_twice Sample.world "unclosed.json"
             Sample.json_unclosed
             (Exn.make Exn.JSONDecodeError
                "Expecting property name enclosed in double quotes: line 1 column 2 (char 1)"));
    reflexivity.
Defined.

(** The parser calls of [load_policy]: at most one, on the text of the
    opened file, by the parser the format names. *)
Lemma load_policy_parser_calls (w : World) (path fmt : string) :
  yaml_loaded (trace (load_policy w path fmt)) =
    match open_file w path with
    | Ret text => if fmt =? "yaml" then [text] else []
    | Raise _ => []
    end /\
  json_loaded (trace (load_policy w path fmt)) =
    match open_file w path with
    | Ret text => if fmt =? "yaml" then [] else if fmt =? "json" then [text] else []
    | Raise _ => []
    end.
Proof.
  unfold_python. cbn.
  destruct (open_file w path) as [text|e]; cbn.
  - destruct (String.eqb fmt "yaml"); [|destruct (String.eqb fmt "json")]; cbn.
    + destruct (yaml_safe_load w text) as [v|e]; split_cases; auto.
    + destruct (json_load w text) as [v|e]; split_cases; auto.
    + auto.
  - split_cases; auto.
Qed.

Lemma load_schema_parser_calls (w : World) (path : string) :
  yaml_loaded (trace (load_schema w path)) = [] /\
  json_loaded (trace (load_schema w path)) =
    match open_file w path with
    | Ret text => [text]
    | Raise _ => []
    end.
Proof.
  unfold_python. cbn.
  destruct (open_file w path) as [text|e]; cbn.
  - destruct (json_load w text) as [v|e]; split_cases; auto.
  - split_cases; auto.
Qed.

Lemma validate_policy_parser_calls (w : World) (policy schema : value) :
  yaml_loaded (trace (validate_policy w policy schema)) = [] /\
  json_loaded (trace (validate_policy w policy schema)) = [].
Proof. unfold_python. split_cases; auto. Qed.

Lemma main_clause_parser_calls (e : exn) (h : exn -> M unit) :
  select e main_clauses = Some h ->
  yaml_loaded (trace (h e)) = [] /\ json_loaded (trace (h e)) = [].
Proof.
  unfold main_clauses. cbn [select].
  repeat match goal with
         | |- (if ?b then _ else _) = _ -> _ => destruct b
         end;
    intros [= <-]; cbn; auto.
Qed.

(** X6.  The YAML parser is reached through [load_policy] only, and only
    for the format "yaml": on any other format a whole run of [main] never
    calls [yaml.safe_load], and with "yaml" it calls it at most once, on
    the text of the policy file.  The schema file is never given to it. *)
Theorem main_yaml_parser_calls (w : World) (args : Args) :
  yaml_loaded (trace (main w args)) =
    match open_file w (policy_file args) with
    | Ret text => if format args =? "yaml" then [text] else []
    | Raise _ => []
    end.
Proof.
  rewrite trace_main. cbn [yaml_loaded].
  rewrite trace_try_except, yaml_loaded_app, trace_main_body.
  destruct (load_policy_parser_calls w (policy_file args) (format args)) as [Hy _].
  destruct (load_schema_parser_calls w (schema_file args)) as [Hs _].
  assert (Hclause : yaml_loaded
                      match result (main_body w args) with
                      | Ret _ => []
                      | Raise e =>
                          match select e main_clauses with
                          | Some h => trace (h e)
                          | None => []
                          end
                      end = []).
  { destruct (result (main_body w args)) as [a|e]; [reflexivity|].
    destruct (select e main_clauses) as [h|] eqn:Hsel; [|reflexivity].
    now destruct (main_clause_parser_calls e h Hsel). }
  rewrite Hclause, app_nil_r, yaml_loaded_app, Hy.
  destruct (result (load_policy _ _ _)) as [policy|e]; [|now rewrite app_nil_r].
  rewrite yaml_loaded_app, Hs.
  destruct (result (load_schema _ _)) as [schema|e]; [|now rewrite !app_nil_r].
  destruct (validate_policy_parser_calls w policy schema) as [Hv _].
  rewrite yaml_loaded_app, Hv.
  destruct (result (validate_policy _ _ _)); cbn; now rewrite !app_nil_r.
Qed.

(** ** Whole runs *)

Lemma errors_logged_load_policy_success (w : World) (path fmt : string) (v : value) :
  result (load_policy w path fmt) = Ret v ->
  errors_logged (trace (load_policy w path fmt)) = [].
Proof.
  intros Hload. pose proof Hload as Hcases.
  rewrite load_policy_result_eq in Hcases.
  destruct (open_file w path) as [text|e] eqn:Hopen; [|discriminate].
  destruct (parser_for w fmt) as [parse|] eqn:Hfmt; [|discriminate].
  destruct (parse text) as [v0|e] eqn:Hparse; [|discriminate].
  destruct (is_dict v0) eqn:Hdict; [|discriminate].
  rewrite (errors_logged_load_policy_when_parsed w path fmt text parse v0
             Hopen Hfmt Hparse), Hdict.
  reflexivity.
Qed.

(** [load_schema] logs only for a missing file or a JSON syntax error. *)
Lemma errors_logged_load_schema (w : World) (path : string) :
  match result (load_schema w path) with
  | Ret _ => errors_logged (trace (load_schema w path)) = []
  | Raise e =>
      Exn.isinstance e Exn.FileNotFoundError = false ->
      Exn.isinstance e Exn.JSONDecodeError = false ->
      errors_logged (trace (load_schema w path)) = []
  end.
Proof.
  unfold_python. cbn.
  destruct (open_file w path) as [text|e]; cbn;
    [destruct (json_load w text) as [v|e]; cbn; [reflexivity|]|];
    destruct (Exn.isinstance e Exn.JSONDecodeError) eqn:Hj;
    destruct (Exn.isinstance e Exn.FileNotFoundError) eqn:Hf;
    cbn; rewrite ?Hj, ?Hf; cbn; intros; congruence.
Qed.

Lemma errors_logged_main (w : World) (args : Args) :
  errors_logged (trace (main w args)) =
    errors_logged (trace (main_body w args)) ++
    match result (main_body w args) with
    | Ret _ => []
    | Raise e =>
        match select e main_clauses with
        | Some h => errors_logged (trace (h e))
        | None => []
        end
    end.
Proof.
  rewrite trace_main. cbn [errors_logged].
  rewrite trace_try_except, errors_logged_app.
  destruct (result (main_body w args)) as [a|e]; [reflexivity|].
  destruct (select e main_clauses); reflexivity.
Qed.

(** X7.  A policy file that does not exist: [load_policy] logs "Policy file
    not found:" with the path and re-raises; [main] prints the not-found
    line and exits with status 1.  Nothing else happens in the run: no
    parser call, no access to the schema file. *)
Theorem missing_policy_file_run (w : World) (args : Args) (e : exn) :
  open_file w (policy_file args) = Raise e ->
  Exn.isinstance e Exn.FileNotFoundError = true ->
  trace (main w args) =
    [EvSetLevel (log_level args);
     EvOpen (policy_file args);
     EvLog ERROR ("Policy file not found: " ++ policy_file args)%string;
     EvPrint not_found_line] /\
  process_status (main w args) = Exited 1.
Proof.
  intros Hopen Hcls.
  assert (Hload : load_policy w (policy_file args) (format args) =
                    ([EvOpen (policy_file args);
                      EvLog ERROR ("Policy file not found: " ++ policy_file args)%string],
                     Raise e)).
  { unfold_python. cbn. rewrite Hopen. cbn. rewrite Hcls. reflexivity. }
  unfold process_status, main. rewrite Hload. unfold_python. cbn.
  rewrite Hcls. cbn. auto.
Qed.

Lemma missing_policy_file_run_witness :
  (open_file Sample.world "missing.yaml" =
     Raise (Exn.make Exn.FileNotFoundError
              "[Errno 2] No such file or directory: 'missing.yaml'")) /\
  process_status (main Sample.world (Sample.args "missing.yaml" "schema.json" "yaml")) =
    Exited 1.
Proof.
  split; [reflexivity|].
  apply (missing_policy_file_run Sample.world
           (Sample.args "missing.yaml" "schema.json" "yaml")
           (Exn.make Exn.FileNotFoundError
              "[Errno 2] No such file or directory: 'missing.yaml'"));
    reflexivity.
Defined.

(** X8.  A schema file that does not exist, after the policy loaded:
    [load_schema] logs "Schema file not found:" with the path, [main]
    prints the same not-found line as for a missing policy and exits with
    status 1; that log record is the only error logged in the run. *)
Theorem missing_schema_file_run
    (w : World) (args : Args) (policy : value) (e : exn) :
  result (load_policy w (policy_file args) (format args)) = Ret policy ->
  open_file w (schema_file args) = Raise e ->
  Exn.isinstance e Exn.FileNotFoundError = true ->
  trace (main w args) =
    EvSetLevel (log_level args)
      :: trace (load_policy w (policy_file args) (format args))
      ++ [EvOpen (schema_file args);
          EvLog ERROR ("Schema file not found: " ++ schema_file args)%string;
          EvPrint not_found_line] /\
  errors_logged (trace (main w args)) =
    [("Schema file not found: " ++ schema_file args)%string] /\
  process_status (main w args) = Exited 1.
Proof.
  intros Hpolicy Hopen Hcls.
  assert (Hschema : load_schema w (schema_file args) =
                      ([EvOpen (schema_file args);
                        EvLog ERROR ("Schema file not found: " ++ schema_file args)%string],
                       Raise e)).
  { unfold_python. cbn. rewrite Hopen. cbn. rewrite Hcls. reflexivity. }
  assert (Hbody : result (main_body w args) = Raise e).
  { rewrite result_main_body, Hpolicy, Hschema. reflexivity. }
  assert (Hsel : select e main_clauses = Some (fun _ => leave_with not_found_line)).
  { unfold main_clauses. cbn [select]. rewrite Hcls. reflexivity. }
  assert (Htrace : trace (main w args) =
            EvSetLevel (log_level args)
              :: trace (load_policy w (policy_file args) (format args))
              ++ [EvOpen (schema_file args);
                  EvLog ERROR ("Schema file not found: " ++ schema_file args)%string;
                  EvPrint not_found_line]).
  { rewrite trace_main, trace_try_except, Hbody, Hsel, trace_main_body,
      Hpolicy, Hschema.
    cbn. rewrite <- app_assoc. reflexivity. }
  split; [assumption|]. split.
  - rewrite Htrace. cbn [errors_logged].
    rewrite errors_logged_app,
      (errors_logged_load_policy_success w _ _ policy Hpolicy).
    reflexivity.
  - apply (main_failure w args e _ Hbody Hsel).
Qed.

Lemma missing_schema_file_run_witness :
  (result (load_policy Sample.world "alice.yaml" "yaml") = Ret Schema.alice /\
   open_file Sample.world "missing.json" =
     Raise (Exn.make Exn.FileNotFoundError
              "[Errno 2] No such file or directory: 'missing.json'")) /\
  errors_logged
    (trace (main Sample.world (Sample.args "alice.yaml" "missing.json" "yaml"))) =
    ["Schema file not found: missing.json"].
Proof.
  split; [split; reflexivity|].
  apply (missing_schema_file_run Sample.world
           (Sample.args "alice.yaml" "missing.json" "yaml") Schema.alice
           (Exn.make Exn.FileNotFoundError
              "[Errno 2] No such file or directory: 'missing.json'"));
    reflexivity.
Defined.

(** X9.  When [open] fails on the policy file with an error that is
    neither a [FileNotFoundError] nor a [ValueError] (a [PermissionError],
    say), [load_policy] logs nothing and lets it through; [main] takes its
    last clause: the only log record of the run is "An unexpected error
    occurred:" with the message, the unexpected-error line is printed and
    the status is 1. *)
Theorem unreadable_policy_file_run (w : World) (args : Args) (e : exn) :
  open_file w (policy_file args) = Raise e ->
  Exn.isinstance e Exn.Exception = true ->
  named_by_main e = false ->
  load_policy w (policy_file args) (format args) =
    ([EvOpen (policy_file args)], Raise e) /\
  trace (main w args) =
    [EvSetLevel (log_level args);
     EvOpen (policy_file args);
     EvLog ERROR ("An unexpected error occurred: " ++ Exn.str e)%string;
     EvPrint unexpected_line] /\
  process_status (main w args) = Exited 1.
Proof.
  intros Hopen Hexc Hnamed.
  unfold named_by_main in Hnamed.
  apply orb_false_iff in Hnamed. destruct Hnamed as [Hnamed Hvalidation].
  apply orb_false_iff in Hnamed. destruct Hnamed as [Hnamed Hjson].
  apply orb_false_iff in Hnamed. destruct Hnamed as [Hnamed Hyaml].
  apply orb_false_iff in Hnamed. destruct Hnamed as [Hnotfound Hvalue].
  assert (Hload : load_policy w (policy_file args) (format args) =
                    ([EvOpen (policy_file args)], Raise e)).
  { unfold_python. cbn. rewrite Hopen. cbn. rewrite Hnotfound, Hvalue. reflexivity. }
  split; [assumption|].
  unfold process_status, main. rewrite Hload. unfold_python. cbn.
  rewrite Hnotfound, Hvalue, Hyaml, Hjson, Hvalidation, Hexc. cbn. auto.
Qed.

Lemma unreadable_policy_file_run_witness :
  (open_file Sample.awkward_world "locked.yaml" = Raise Sample.permission_denied /\
   Exn.isinstance Sample.permission_denied Exn.Exception = true /\
   named_by_main Sample.permission_denied = false) /\
  load_policy Sample.awkward_world "locked.yaml" "yaml" =
    ([EvOpen "locked.yaml"], Raise Sample.permission_denied).
Proof.
  split; [repeat split|].
  apply (unreadable_policy_file_run Sample.awkward_world
           (Sample.args "locked.yaml" "schema.json" "yaml")
           Sample.permission_denied); reflexivity.
Defined.

(** X10.  A YAML syntax error in the policy file: the run consists of
    opening the file, the one parser call, the log record "Error parsing
    YAML file:" with the parser's message, and the YAML line on standard
    output; the schema file is never opened and the status is 1. *)
Theorem yaml_error_run (w : World) (args : Args) (text : string) (e : exn) :
  format args = "yaml" ->
  open_file w (policy_file args) = Ret text ->
  yaml_safe_load w text = Raise e ->
  Exn.isinstance e Exn.YAMLError = true ->
  trace (main w args) =
    [EvSetLevel (log_level args);
     EvOpen (policy_file args);
     EvYamlLoad text;
     EvLog ERROR ("Error parsing YAML file: " ++ Exn.str e)%string;
     EvPrint yaml_error_line] /\
  process_status (main w args) = Exited 1.
Proof.
  intros Hfmt Hopen Hyaml Hcls.
  destruct (isinstance_YAMLError_disjoint e Hcls) as (Hfnf & Hval & _).
  assert (Hload : load_policy w (policy_file args) (format args) =
                    ([EvOpen (policy_file args); EvYamlLoad text;
                      EvLog ERROR ("Error parsing YAML file: " ++ Exn.str e)%string],
                     Raise e)).
  { rewrite Hfmt. unfold_python. cbn. rewrite Hopen. cbn. rewrite Hyaml. cbn.
    rewrite Hcls. cbn. rewrite Hfnf, Hval. reflexivity. }
  unfold process_status, main. rewrite Hload. unfold_python. cbn.
  rewrite Hfnf, Hval, Hcls. cbn. auto.
Qed.

Lemma yaml_error_run_witness :
  (open_file Sample.world "unclosed.yaml" = Ret Sample.yaml_unclosed /\
   Exn.isinstance
     (Exn.make Exn.ParserError
        "while parsing a flow node expected the node content, but found '<stream end>'")
     Exn.YAMLError = true) /\
  process_status (main Sample.world (Sample.args "unclosed.yaml" "schema.json" "yaml")) =
    Exited 1.
Proof.
  split; [split; reflexivity|].
  apply (yaml_error_run Sample.world
           (Sample.args "unclosed.yaml" "schema.json" "yaml") Sample.yaml_unclosed
           (Exn.make Exn.ParserError
              "while parsing a flow node expected the node content, but found '<stream end>'"));
    reflexivity.
Defined.

(** X11.  A policy that violates the schema: after both files loaded, the
    engine's [ValidationError] is logged once, as "Policy validation
    failed:" with the engine's message, and that is the only error logged in
    the run; [main] prints the validation-failed line and exits with
    status 1. *)
Theorem conformance_failure_run
    (w : World) (args : Args) (policy schema : value) (e : exn) :
  result (load_policy w (policy_file args) (format args)) = Ret policy ->
  result (load_schema w (schema_file args)) = Ret schema ->
  jsonschema_validate w policy schema = Raise e ->
  Exn.isinstance e Exn.ValidationError = true ->
  errors_logged (trace (main w args)) =
    [("Policy validation failed: " ++ Exn.str e)%string] /\
  printed (trace (main w args)) = [validation_failed_line] /\
  validated (trace (main w args)) = [(policy, schema)] /\
  process_status (main w args) = Exited 1.
Proof.
  intros Hpolicy Hschema Hengine Hcls.
  assert (Hvp : validate_policy w policy schema =
                  ([EvValidate policy schema;
                    EvLog ERROR ("Policy validation failed: " ++ Exn.str e)%string],
                   Raise e)).
  { unfold_python. cbn. rewrite Hengine. cbn. rewrite Hcls. reflexivity. }
  assert (Hbody : result (main_body w args) = Raise e).
  { rewrite result_main_body, Hpolicy, Hschema, Hvp. reflexivity. }
  assert (Hsel : select e main_clauses = Some (fun _ => leave_with validation_failed_line)).
  { unfold main_clauses. cbn [select].
    assert (Hfnf : Exn.isinstance e Exn.FileNotFoundError = false)
      by (destruct e as [c s]; destruct c; cbn in *; congruence).
    assert (Hval : Exn.isinstance e Exn.ValueError = false)
      by (destruct e as [c s]; destruct c; cbn in *; congruence).
    assert (Hyaml : Exn.isinstance e Exn.YAMLError = false)
      by (destruct e as [c s]; destruct c; cbn in *; congruence).
    assert (Hjson : Exn.isinstance e Exn.JSONDecodeError = false)
      by (destruct e as [c s]; destruct c; cbn in *; congruence).
    rewrite Hfnf, Hval, Hyaml, Hjson, Hcls. reflexivity. }
  pose proof (errors_logged_load_schema w (schema_file args)) as Hls.
  rewrite Hschema in Hls.
  split; [|split; [|split]].
  - rewrite errors_logged_main, Hbody, Hsel, trace_main_body, Hpolicy, Hschema, Hvp.
    rewrite !errors_logged_app,
      (errors_logged_load_policy_success w _ _ policy Hpolicy), Hls.
    reflexivity.
  - apply (main_failure w args e _ Hbody Hsel).
  - rewrite trace_main. cbn [validated].
    destruct (main_clauses_effects (main_body w args)) as [_ ->].
    rewrite trace_main_body, Hpolicy, Hschema, Hvp, !validated_app.
    destruct (load_policy_effects w (policy_file args) (format args)) as (_ & -> & _).
    destruct (load_schema_effects w (schema_file args)) as (_ & -> & _).
    reflexivity.
  - apply (main_failure w args e _ Hbody Hsel).
Qed.

Lemma conformance_failure_run_witness :
  (result (load_policy Sample.world "age.yaml" "yaml") = Ret Schema.age5 /\
   result (load_schema Sample.world "schema.json") = Ret Schema.name_schema /\
   jsonschema_validate Sample.world Schema.age5 Schema.name_schema =
     Raise (Exn.make Exn.ValidationError "instance violates the schema")) /\
  errors_logged
    (trace (main Sample.world (Sample.args "age.yaml" "schema.json" "yaml"))) =
    ["Policy validation failed: instance violates the schema"].
Proof.
  split; [repeat split|].
  apply (conformance_failure_run Sample.world
           (Sample.args "age.yaml" "schema.json" "yaml")
           Schema.age5 Schema.name_schema
           (Exn.make Exn.ValidationError "instance violates the schema"));
    reflexivity.
Defined.

(** X12.  A conforming policy: the run is the two loads followed by one
    engine call, the INFO record and the printed success line, in that
    order; no error is logged anywhere in the run and the status is 0. *)
Theorem successful_run
    (w : World) (args : Args) (policy schema : value) :
  result (load_policy w (policy_file args) (format args)) = Ret policy ->
  result (load_schema w (schema_file args)) = Ret schema ->
  jsonschema_validate w policy schema = Ret tt ->
  trace (main w args) =
    EvSetLevel (log_level args)
      :: trace (load_policy w (policy_file args) (format args))
      ++ trace (load_schema w (schema_file args))
      ++ [EvValidate policy schema;
          EvLog INFO "Policy validation successful.";
          EvPrint success_line] /\
  errors_logged (trace (main w args)) = [] /\
  process_status (main w args) = Exited 0.
Proof.
  intros Hpolicy Hschema Hengine.
  assert (Hvp : validate_policy w policy schema =
                  ([EvValidate policy schema;
                    EvLog INFO "Policy validation successful."],
                   Ret tt)).
  { unfold_python. cbn. rewrite Hengine. reflexivity. }
  assert (Hbody : result (main_body w args) = Ret tt).
  { rewrite result_main_body, Hpolicy, Hschema, Hvp. reflexivity. }
  assert (Htrace : trace (main w args) =
            EvSetLevel (log_level args)
              :: trace (load_policy w (policy_file args) (format args))
              ++ trace (load_schema w (schema_file args))
              ++ [EvValidate policy schema;
                  EvLog INFO "Policy validation successful.";
                  EvPrint success_line]).
  { rewrite trace_main, trace_try_except, Hbody, trace_main_body,
      Hpolicy, Hschema, Hvp.
    cbn. rewrite app_nil_r. reflexivity. }
  pose proof (errors_logged_load_schema w (schema_file args)) as Hls.
  rewrite Hschema in Hls.
  split; [assumption|]. split.
  - rewrite Htrace. cbn [errors_logged].
    rewrite !errors_logged_app,
      (errors_logged_load_policy_success w _ _ policy Hpolicy), Hls.
    reflexivity.
  - apply (main_success w args Hbody).
Qed.

Lemma successful_run_witness :
  (result (load_policy Sample.world "alice.json" "json") = Ret Schema.alice /\
   result (load_schema Sample.world "schema.json") = Ret Schema.name_schema /\
   jsonschema_validate Sample.world Schema.alice Schema.name_schema = Ret tt) /\
  process_status (main Sample.world (Sample.args "alice.json" "schema.json" "json")) =
    Exited 0.
Proof.
  split; [repeat split|].
  apply (successful_run Sample.world
           (Sample.args "alice.json" "schema.json" "json")
           Schema.alice Schema.name_schema); reflexivity.
Defined.

(** In a world whose calls raise only ordinary exceptions, so does every
    step of [main]. *)
Lemma main_body_raises_exception (w : World) (args : Args) (e : exn) :
  raises_only_exceptions w ->
  result (main_body w args) = Raise e ->
  Exn.isinstance e Exn.Exception = true.
Proof.
  intros (Hopen & Hyaml & Hjson & Hengine).
  rewrite result_main_body, load_policy_result_eq.
  pose proof (Hopen (policy_file args)) as Hop.
  destruct (open_file w (policy_file args)) as [text|e0]; [|now intros [= <-]].
  unfold parser_for.
  assert (Hparse : forall parse : string -> outcome value,
             (forall t, ordinary (parse t)) ->
             match
               match parse text with
               | Ret v =>
                   if is_dict v then Ret v
                   else Raise (Exn.make Exn.ValueError
                                 "Policy file must contain a dictionary.")
               | Raise e1 => Raise e1
               end
             with
             | Ret policy =>
                 match result (load_schema w (schema_file args)) with
                 | Ret schema =>
                     match result (validate_policy w policy schema) with
                     | Ret _ => Ret tt
                     | Raise e1 => Raise e1
                     end
                 | Raise e1 => Raise e1
                 end
             | Raise e1 => Raise e1
             end = Raise e -> Exn.isinstance e Exn.Exception = true).
  { intros parse Hp. pose proof (Hp text) as Hpt.
    destruct (parse text) as [v|e1]; [|now intros [= <-]].
    destruct (is_dict v); [|now intros [= <-]].
    rewrite load_schema_result_eq.
    pose proof (Hopen (schema_file args)) as Hos.
    destruct (open_file w (schema_file args)) as [stext|e1]; [|now intros [= <-]].
    pose proof (Hjson stext) as Hjs.
    destruct (json_load w stext) as [schema|e1]; [|now intros [= <-]].
    rewrite validate_policy_result.
    pose proof (Hengine v schema) as Hv.
    destruct (jsonschema_validate w v schema) as [[]|e1]; [discriminate|].
    now intros [= <-]. }
  destruct (String.eqb (format args) "yaml"); [now apply Hparse|].
  destruct (String.eqb (format args) "json"); [now apply Hparse|].
  now intros [= <-].
Qed.

(** Once the arguments are parsed, in a world whose calls raise nothing but
    exceptions derived from [Exception]. *)
Lemma main_status_after_parsing (w : World) (args : Args) :
  raises_only_exceptions w ->
  (process_status (main w args) = Exited 0 <->
   exists policy schema,
     result (load_policy w (policy_file args) (format args)) = Ret policy /\
     result (load_schema w (schema_file args)) = Ret schema /\
     jsonschema_validate w policy schema = Ret tt) /\
  (process_status (main w args) = Exited 0 \/
   process_status (main w args) = Exited 1) /\
  length (printed (trace (main w args))) = 1%nat.
Proof.
  intros Hworld.
  assert (Hbody : result (main_body w args) = Ret tt <->
                  exists policy schema,
                    result (load_policy w (policy_file args) (format args)) = Ret policy /\
                    result (load_schema w (schema_file args)) = Ret schema /\
                    jsonschema_validate w policy schema = Ret tt).
  { rewrite result_main_body. split.
    - destruct (result (load_policy _ _ _)) as [policy|e]; [|discriminate].
      destruct (result (load_schema _ _)) as [schema|e]; [|discriminate].
      rewrite validate_policy_result.
      destruct (jsonschema_validate w policy schema) as [[]|e] eqn:Hv; [|discriminate].
      intros _. exists policy, schema. auto.
    - intros (policy & schema & -> & -> & Hv).
      now rewrite validate_policy_result, Hv. }
  pose proof (main_exit_status w args) as Hexit.
  destruct (result (main_body w args)) as [[]|e] eqn:Hres.
  - destruct (main_success w args Hres) as [Hprinted Hstatus].
    split; [|split].
    + split; intros _; [now apply Hbody | assumption].
    + auto.
    + now rewrite Hprinted.
  - rewrite (main_body_raises_exception w args e Hworld Hres) in Hexit.
    destruct Hexit as [Hstatus [line Hline]].
    split; [|split].
    + split.
      * rewrite Hstatus. discriminate.
      * intros H. apply Hbody in H. discriminate.
    + auto.
    + now rewrite Hline.
Qed.

Lemma answer_ordinary (table : list (string * outcome value)) (text : string) :
  Forall (fun entry => ordinary (snd entry)) table ->
  ordinary (Sample.answer table text).
Proof.
  unfold Sample.answer. intros Htable.
  induction Htable as [|[k r] rest Hr _ IH]; [reflexivity|].
  cbn. destruct (String.eqb text k); [exact Hr | exact IH].
Qed.

Lemma sample_world_raises_only_exceptions : raises_only_exceptions Sample.world.
Proof.
  repeat split.
  - intros path. cbn. unfold Sample.open_on_disk.
    destruct (Sample.lookup path Sample.disk); reflexivity.
  - intros text. apply answer_ordinary.
    repeat constructor.
  - intros text. apply answer_ordinary.
    repeat constructor.
  - intros inst schema. cbn. unfold Sample.reference_engine.
    destruct (Schema.verdict schema inst) as [[]|]; reflexivity.
Qed.

(** Once the arguments are parsed, [main] prints at most one line, the
    success line or one of five failure lines. *)
Lemma printed_lines_after_parsing (w : World) (args : Args) :
  (length (printed (trace (main w args))) <= 1)%nat /\
  forallb
    (fun line =>
       existsb (String.eqb line)
         [success_line; not_found_line; invalid_input_line; yaml_error_line;
          validation_failed_line; unexpected_line])
    (printed (trace (main w args))) = true.
Proof.
  destruct (result (main_body w args)) as [[]|e] eqn:Hbody.
  - destruct (main_success w args Hbody) as [-> _]. split; [cbn; lia | reflexivity].
  - destruct (select e main_clauses) as [h|] eqn:Hsel.
    + destruct (main_failure w args e h Hbody Hsel) as [-> _].
      revert Hsel. unfold main_clauses. cbn [select].
      destruct (Exn.isinstance e Exn.FileNotFoundError);
        [intros [= <-]; split; [cbn; lia | reflexivity]|].
      destruct (Exn.isinstance e Exn.ValueError) eqn:Hv;
        [intros [= <-]; split; [cbn; lia | reflexivity]|].
      destruct (Exn.isinstance e Exn.YAMLError);
        [intros [= <-]; split; [cbn; lia | reflexivity]|].
      destruct (Exn.isinstance e Exn.JSONDecodeError) eqn:Hj.
      { rewrite (isinstance_JSONDecodeError_ValueError e Hj) in Hv. discriminate. }
      destruct (Exn.isinstance e Exn.ValidationError);
        [intros [= <-]; split; [cbn; lia | reflexivity]|].
      destruct (Exn.isinstance e Exn.Exception);
        [intros [= <-]; split; [cbn; lia | reflexivity]|].
      discriminate.
    + rewrite trace_main. cbn [printed].
      rewrite trace_try_except, printed_app, printed_main_body, Hbody, Hsel.
      split; [cbn; lia | reflexivity].
Qed.

(** X15.  [validate_policy] calls the engine exactly once, on the policy as
    instance and the schema as schema, and its outcome is the engine's.  It
    writes one log record when the engine returns (INFO) or raises a
    [ValidationError] (ERROR, with the engine's message) and none when the
    engine raises anything else. *)
Theorem validate_policy_calls_and_logs (w : World) (policy schema : value) :
  validated (trace (validate_policy w policy schema)) = [(policy, schema)] /\
  result (validate_policy w policy schema) = jsonschema_validate w policy schema /\
  logged (trace (validate_policy w policy schema)) =
    match jsonschema_validate w policy schema with
    | Ret _ => [(INFO, "Policy validation successful.")]
    | Raise e =>
        if Exn.isinstance e Exn.ValidationError
        then [(ERROR, ("Policy validation failed: " ++ Exn.str e)%string)]
        else []
    end.
Proof.
  split; [apply validate_policy_effects|].
  split; [apply validate_policy_result|].
  unfold_python. cbn.
  destruct (jsonschema_validate w policy schema) as [[]|e]; cbn; [reflexivity|].
  destruct (Exn.isinstance e Exn.ValidationError); reflexivity.
Qed.

(** X16.  [load_schema] has no clause for a [ValueError] that is not a JSON
    syntax error ([open] refusing a path with a NUL character, a decoding
    error while reading).  When the schema load fails that way after the
    policy loaded, [main] prints the invalid-input line, which sends the
    reader to the logs, with no error logged anywhere in the run. *)
Theorem schema_value_error_not_logged
    (w : World) (args : Args) (policy : value) (e : exn) :
  result (load_policy w (policy_file args) (format args)) = Ret policy ->
  result (load_schema w (schema_file args)) = Raise e ->
  Exn.isinstance e Exn.ValueError = true ->
  Exn.isinstance e Exn.JSONDecodeError = false ->
  errors_logged (trace (main w args)) = [] /\
  printed (trace (main w args)) = [invalid_input_line] /\
  process_status (main w args) = Exited 1.
Proof.
  intros Hpolicy Hschema Hval Hjson.
  pose proof (isinstance_ValueError_not_FileNotFoundError e Hval) as Hfnf.
  assert (Hbody : result (main_body w args) = Raise e).
  { rewrite result_main_body, Hpolicy, Hschema. reflexivity. }
  assert (Hsel : select e main_clauses = Some (fun _ => leave_with invalid_input_line)).
  { unfold main_clauses. cbn [select]. rewrite Hfnf, Hval. reflexivity. }
  pose proof (errors_logged_load_schema w (schema_file args)) as Hls.
  rewrite Hschema in Hls. specialize (Hls Hfnf Hjson).
  split.
  - rewrite errors_logged_main, Hbody, Hsel, trace_main_body, Hpolicy, Hschema.
    rewrite !errors_logged_app,
      (errors_logged_load_policy_success w _ _ policy Hpolicy), Hls.
    reflexivity.
  - apply (main_failure w args e _ Hbody Hsel).
Qed.

Lemma schema_value_error_not_logged_witness :
  (result (load_policy Sample.awkward_world "alice.yaml" "yaml") = Ret Schema.alice /\
   result (load_schema Sample.awkward_world Sample.nul_path) =
     Raise Sample.embedded_null /\
   Exn.isinstance Sample.embedded_null Exn.ValueError = true /\
   Exn.isinstance Sample.embedded_null Exn.JSONDecodeError = false) /\
  errors_logged
    (trace (main Sample.awkward_world
              (Sample.args "alice.yaml" Sample.nul_path "yaml"))) = [].
Proof.
  split; [repeat split|].
  apply (schema_value_error_not_logged Sample.awkward_world
           (Sample.args "alice.yaml" Sample.nul_path "yaml") Schema.alice
           Sample.embedded_null); reflexivity.
Defined.


(** ** Runs from the command line *)

Lemma bind_Ret_eq {A B} (t : list event) (a : A) (k : A -> M B) :
  bind (t, Ret a) k = (t ++ trace (k a), result (k a)).
Proof. unfold bind, trace, result. now destruct (k a). Qed.

Lemma main_from_command_line_eq (parse_args : M Args) (w : World) :
  main_from_command_line parse_args w =
    match result parse_args with
    | Ret args => (trace parse_args ++ trace (main w args), result (main w args))
    | Raise e => (trace parse_args, Raise e)
    end.
Proof.
  unfold main_from_command_line, setup_argparse.
  destruct parse_args as [t [args|e]]; [|reflexivity].
  apply bind_Ret_eq.
Qed.

(** X13.  Every run of [main], in a world whose four external calls raise
    nothing but exceptions derived from [Exception].  If argparse raises
    (usage error, help), the run ends there with argparse's exception: no
    log level is set, no file is opened, nothing more is printed.  If it
    returns the arguments, the exit status is 0 or 1, it is 0 if and only if
    the policy loaded, the schema loaded and the engine accepted, and [main]
    prints exactly one line after whatever argparse printed. *)
Theorem exit_status_of_every_run (parse_args : M Args) (w : World) :
  raises_only_exceptions w ->
  match result parse_args with
  | Raise e =>
      main_from_command_line parse_args w = (trace parse_args, Raise e)
  | Ret args =>
      (process_status (main_from_command_line parse_args w) = Exited 0 <->
       exists policy schema,
         result (load_policy w (policy_file args) (format args)) = Ret policy /\
         result (load_schema w (schema_file args)) = Ret schema /\
         jsonschema_validate w policy schema = Ret tt) /\
      (process_status (main_from_command_line parse_args w) = Exited 0 \/
       process_status (main_from_command_line parse_args w) = Exited 1) /\
      exists line,
        printed (trace (main_from_command_line parse_args w)) =
          printed (trace parse_args) ++ [line]
  end.
Proof.
  intros Hworld. rewrite main_from_command_line_eq.
  destruct (result parse_args) as [args|e]; [|reflexivity].
  destruct (main_status_after_parsing w args Hworld) as (Hiff & Hstatus & Hlen).
  assert (Hsame : process_status
                    (trace parse_args ++ trace (main w args), result (main w args))
                  = process_status (main w args)) by reflexivity.
  rewrite Hsame.
  split; [exact Hiff|]. split; [exact Hstatus|].
  change (trace (trace parse_args ++ trace (main w args), result (main w args)))
    with (trace parse_args ++ trace (main w args)).
  rewrite printed_app.
  destruct (printed (trace (main w args))) as [|line [|line' rest]];
    try discriminate Hlen.
  exists line. reflexivity.
Qed.

Lemma exit_status_of_every_run_witness :
  raises_only_exceptions Sample.world /\
  main_from_command_line Sample.usage_error Sample.world =
    ([], Raise (Exn.make (Exn.SystemExit 2) "2")) /\
  (process_status
     (main_from_command_line
        (Sample.accepted (Sample.args "age.yaml" "schema.json" "yaml"))
        Sample.world) = Exited 0 \/
   process_status
     (main_from_command_line
        (Sample.accepted (Sample.args "age.yaml" "schema.json" "yaml"))
        Sample.world) = Exited 1).
Proof.
  split; [exact sample_world_raises_only_exceptions|]. split.
  - apply (exit_status_of_every_run Sample.usage_error Sample.world
             sample_world_raises_only_exceptions).
  - apply (exit_status_of_every_run
             (Sample.accepted (Sample.args "age.yaml" "schema.json" "yaml"))
             Sample.world sample_world_raises_only_exceptions).
Defined.

(** X14.  In every run of [main], whatever the world does, the lines on
    standard output are those argparse itself wrote followed by at most one
    line of [main]: the success line or one of five failure lines, never
    the line of the [except json.JSONDecodeError] clause; and none at all
    when argparse raised. *)
Theorem printed_lines_of_every_run (parse_args : M Args) (w : World) :
  exists lines,
    printed (trace (main_from_command_line parse_args w)) =
      printed (trace parse_args) ++ lines /\
    (length lines <= 1)%nat /\
    forallb
      (fun line =>
         existsb (String.eqb line)
           [success_line; not_found_line; invalid_input_line; yaml_error_line;
            validation_failed_line; unexpected_line])
      lines = true /\
    match result parse_args with
    | Raise _ => lines = []
    | Ret _ => True
    end.
Proof.
  rewrite main_from_command_line_eq.
  destruct (result parse_args) as [args|e].
  - exists (printed (trace (main w args))).
    destruct (printed_lines_after_parsing w args) as [Hlen Hall].
    cbn [trace fst]. rewrite printed_app. auto.
  - exists []. cbn [trace fst]. rewrite app_nil_r. auto.
Qed.

(** ** The JSON model: reading back what was written *)

Module JsonFacts.
Import Json.

#[local] Arguments String.append !s1 s2.




(** Strings *)




(** Integers *)









(** Whitespace and the first character of a serialized value *)








(** The equations of [parse_value] used below *)




Lemma parse_value_dict (d : nat) (s : string) :
  parse_value (S d) (String "{" s) =
    match skip_ws s with
    | EmptyString => None
    | String c' r =>
        if (c' =? "}")%char then Some (VDict [], r)
        else
          match parse_members (parse_value d) (String.length s) s with
          | Some (items, r') =>
              if Schema.keys_unique items then Some (VDict items, r') else None
          | None => None
          end
    end.
Proof. reflexivity. Qed.


(** The round trip *)









End JsonFacts.



